(** * Vector-search demo scripts: a shallow embedding and its properties

    The repository holds three Python scripts:
    - [create_vector_search_index.py]  (the Index Provisioner),
    - [gen_text_embedding.py]          (the Seeder),
    - [vector_search_chatbot.py]       (the Interactive Search UI).

    Each script is a straight line of calls to external collaborators (the
    embedding service, the Atlas collection, the terminal, the random
    source) wrapped in logging and [try]/[except].  The embedding below keeps
    that shape: a small monad threads the process environment, the state of
    the outside world and an ordered trace of observable effects; the
    collaborators are an interface whose replies the scripts cannot see in
    advance. *)

From Stdlib Require Import ZArith NArith Ascii DecimalString DecimalNat Lia.
From stdpp Require Import strings gmap list.

Local Open Scope Z_scope.

(** ** Python strings

    A Python 3 [str] is a sequence of Unicode code points; it is modelled as
    a list of code points.  [py] reads an ASCII literal. *)

Module PyStr.

Abbreviation pystr := (list N).

Definition py (s : string) : pystr :=
  map N_of_ascii (String.list_ascii_of_string s).
Arguments py : simpl never.

(** [str.isspace] for one code point, the table CPython's
    [_PyUnicode_IsWhitespace] uses. *)
Definition isspace (c : N) : bool :=
  (((9 <=? c) && (c <=? 13)) || ((28 <=? c) && (c <=? 32))
   || (c =? 133) || (c =? 160) || (c =? 5760)
   || ((8192 <=? c) && (c <=? 8202))
   || (c =? 8232) || (c =? 8233) || (c =? 8239) || (c =? 8287)
   || (c =? 12288))%N.

Fixpoint lstrip (s : pystr) : pystr :=
  match s with
  | c :: s' => if isspace c then lstrip s' else s
  | [] => []
  end.

Definition rstrip (s : pystr) : pystr := rev (lstrip (rev s)).

(** [s.strip()] with no argument. *)
Definition strip (s : pystr) : pystr := rstrip (lstrip s).

(** Truthiness of a [str]: the empty string is falsy. *)
Definition truthy (s : pystr) : bool :=
  match s with [] => false | _ => true end.

(** "empty or whitespace only", as a property of the text itself. *)
Definition blank (s : pystr) : bool := forallb isspace s.

(** [sep.join(parts)] *)
Fixpoint join (sep : pystr) (parts : list pystr) : pystr :=
  match parts with
  | [] => []
  | [p] => p
  | p :: ps => p ++ sep ++ join sep ps
  end.

(** [str(n)] for a non-negative [int]. *)
Definition str_of_nat (n : nat) : pystr :=
  py (NilEmpty.string_of_uint (Nat.to_uint n)).

(** [needle in haystack] *)
Fixpoint startswith (p s : pystr) : bool :=
  match p, s with
  | [], _ => true
  | a :: p', b :: s' => (a =? b)%N && startswith p' s'
  | _ :: _, [] => false
  end.

Fixpoint contains (needle hay : pystr) : bool :=
  startswith needle hay ||
  match hay with
  | [] => false
  | _ :: hay' => contains needle hay'
  end.

(** [repr(s)] of a [str]: CPython picks double quotes when the text holds a
    single quote and no double quote; it escapes the quote, the backslash,
    the ASCII control characters and, above ASCII, the code points that are
    not printable ([\xhh], [\uhhhh] or [\Uhhhhhhhh] by size).  Which code
    points above ASCII are printable is the interpreter's Unicode table,
    taken as the parameter [printable]. *)
Definition hex_digit (d : N) : N :=
  (if d <? 10 then 48 + d else 87 + d)%N.

(** [c] in lower-case hexadecimal on [width] digits. *)
Fixpoint hex_fixed (width : nat) (c : N) : pystr :=
  match width with
  | O => []
  | S width' => hex_fixed width' (c / 16)%N ++ [hex_digit (c mod 16)%N]
  end.

Definition repr_char (printable : N -> bool) (quote c : N) : pystr :=
  (if (c =? quote) || (c =? 92) then [92; c]
   else if c =? 9 then [92; 116]
   else if c =? 10 then [92; 110]
   else if c =? 13 then [92; 114]
   else if (c <? 32) || (c =? 127) then [92; 120] ++ hex_fixed 2 c
   else if c <? 127 then [c]
   else if printable c then [c]
   else if c <=? 255 then [92; 120] ++ hex_fixed 2 c
   else if c <=? 65535 then [92; 117] ++ hex_fixed 4 c
   else [92; 85] ++ hex_fixed 8 c)%N.

Definition py_repr (printable : N -> bool) (s : pystr) : pystr :=
  let quote :=
    (if existsb (N.eqb 39) s && negb (existsb (N.eqb 34) s) then 34 else 39)%N in
  [quote] ++ concat (map (repr_char printable quote) s) ++ [quote].

End PyStr.
Import PyStr.

(** ** Values the scripts handle *)

(** [langchain_core.documents.Document]: text plus a metadata [dict]. *)
Record Document := {
  page_content : pystr;
  metadata : gmap pystr pystr;
}.

(** Exceptions of the [Exception] hierarchy, which is what every [except]
    clause of the scripts names.  [KeyError] is raised by [os.environ[k]];
    every other error comes from a collaborator and carries its class name
    and its text. *)
Inductive PyException :=
| KeyError (key : pystr)
| Error (cls : pystr) (text : pystr).


(** Client handles.  A handle records the arguments it was built from. *)
Record AzureOpenAIEmbeddings := {
  azure_endpoint : pystr;
  azure_deployment : pystr;
  openai_api_version : pystr;
}.

(** [MongoClient(host)]; [host] is [None] when the URI was not configured. *)
Record MongoClient := { host : option pystr }.

(** [client[db][coll]] *)
Record Collection := {
  coll_client : MongoClient;
  coll_db : pystr;
  coll_name : pystr;
}.

Inductive MongoDBAtlasVectorSearch :=
| from_connection_string
    (connection_string : option pystr) (namespace : pystr)
    (embedding : AzureOpenAIEmbeddings) (index_name : pystr)
| from_collection
    (collection : Collection)
    (embedding : AzureOpenAIEmbeddings) (index_name : pystr)
    (relevance_score_fn : pystr).

(** ** The outside world

    Every call that leaves the process.  The index of [Call] is the type of
    the value the call returns when it does not raise. *)
Inductive Call {F : Type} : Type -> Type :=
| new_AzureOpenAIEmbeddings (e : AzureOpenAIEmbeddings) : Call unit
| embed_query (e : AzureOpenAIEmbeddings) (text : pystr) : Call (list F)
| new_MongoClient (c : MongoClient) : Call unit
| admin_command (c : MongoClient) (command : pystr) : Call unit
| new_MongoDBAtlasVectorSearch (v : MongoDBAtlasVectorSearch) : Call unit
| add_documents (v : MongoDBAtlasVectorSearch)
    (documents : list Document) (ids : list pystr) : Call (list pystr)
| similarity_search (v : MongoDBAtlasVectorSearch)
    (query : pystr) (k : Z) : Call (list Document)
| create_vector_search_index (v : MongoDBAtlasVectorSearch)
    (dimensions : Z) : Call unit.
Arguments Call : clear implicits.

Inductive Reply (A : Type) :=
| Returns (a : A)
| Raises (e : PyException).
Arguments Returns {A} a.
Arguments Raises {A} e.

(** What lies outside the scripts.  The collaborators: their joint state
    [svc], what a float is, how they answer a call (a reply may depend on the
    process environment, from which the clients read the API key).  The
    terminal: what the password prompt returns, the typed text or the
    exception [getpass.getpass] raises when nothing can be read ([EOFError]
    on a closed terminal).  The random source, which always answers.  The
    interpreter's Unicode table: which code points [str.isprintable] holds
    printable. *)
Class External := {
  svc : Type;
  pyfloat : Type;
  respond : forall A, Call pyfloat A -> gmap pystr pystr -> svc -> Reply A * svc;
  tty_getpass : pystr -> svc -> Reply pystr * svc;
  random_uuid4 : svc -> pystr * svc;
  isprintable : N -> bool;
}.

(** [str(e)], also what [f"{e}"] prints; for a [KeyError] it is the [repr]
    of the key. *)
Definition str_exc `{External} (e : PyException) : pystr :=
  match e with
  | KeyError k => py_repr isprintable k
  | Error _ text => text
  end.

(** [str(l)] of a list of [str]. *)
Definition str_of_list `{External} (l : list pystr) : pystr :=
  py "[" ++ join (py ", ") (map (py_repr isprintable) l) ++ py "]".

Inductive Level := INFO | ERROR.

(** What an observer of the process sees, in order. *)
Inductive Event `{External} :=
| EvLog (level : Level) (msg : pystr)
| EvPrompt (prompt : pystr)
| EvUuid4 (drawn : pystr)
| EvCall {A} (c : Call pyfloat A).

(** The calls that go over the network.  Building a client handle does not
    block on the network; every method call on a handle does. *)
Definition is_network_call {F A} (c : Call F A) : bool :=
  match c with
  | new_AzureOpenAIEmbeddings _ => false
  | new_MongoClient _ => false
  | new_MongoDBAtlasVectorSearch _ => false
  | embed_query _ _ => true
  | admin_command _ _ => true
  | add_documents _ _ _ => true
  | similarity_search _ _ _ => true
  | create_vector_search_index _ _ => true
  end.

Definition is_network `{External} (ev : Event) : bool :=
  match ev with
  | EvCall c => is_network_call c
  | _ => false
  end.

Definition is_prompt `{External} (ev : Event) : bool :=
  match ev with EvPrompt _ => true | _ => false end.

Definition is_similarity_search `{External} (ev : Event) : bool :=
  match ev with EvCall (similarity_search _ _ _) => true | _ => false end.

Definition is_add_documents `{External} (ev : Event) : bool :=
  match ev with EvCall (add_documents _ _ _) => true | _ => false end.

Definition is_error_log `{External} (ev : Event) : bool :=
  match ev with EvLog ERROR _ => true | _ => false end.


(** ** The process monad *)

Record World `{External} := {
  environ : gmap pystr pystr;     (* os.environ, after load_dotenv() *)
  outside : svc;
  trace : list Event;
}.

(** How a piece of code ends: it returns, an [Exception] escapes it, or
    [sys.exit(code)] unwinds it ([SystemExit] is not an [Exception], so no
    [except Exception] clause stops it). *)
Inductive Outcome (A : Type) :=
| Normal (a : A)
| Raised (e : PyException)
| SysExit (code : Z).
Arguments Normal {A} a.
Arguments Raised {A} e.
Arguments SysExit {A} code.

Definition Py `{External} (A : Type) : Type := World -> Outcome A * World.

#[global] Instance Py_ret `{External} : MRet Py :=
  fun A a w => (Normal a, w).

#[global] Instance Py_bind `{External} : MBind Py :=
  fun A B k m w =>
    match m w with
    | (Normal a, w') => k a w'
    | (Raised e, w') => (Raised e, w')
    | (SysExit c, w') => (SysExit c, w')
    end.

Section Primitives.
Context `{External}.

Definition emit (ev : Event) : Py unit :=
  fun w => (Normal tt,
            {| environ := environ w; outside := outside w;
               trace := trace w ++ [ev] |}).

Definition raise {A} (e : PyException) : Py A := fun w => (Raised e, w).

Definition sys_exit {A} (code : Z) : Py A := fun w => (SysExit code, w).

(** [try: body  except Exception as e: handler(e)] *)
Definition try_except {A} (body : Py A) (handler : PyException -> Py A) : Py A :=
  fun w =>
    match body w with
    | (Raised e, w') => handler e w'
    | r => r
    end.

Definition logging_info (msg : pystr) : Py unit := emit (EvLog INFO msg).
Definition logging_error (msg : pystr) : Py unit := emit (EvLog ERROR msg).

(** [os.environ.get(k)] *)
Definition environ_get (k : pystr) : Py (option pystr) :=
  fun w => (Normal (environ w !! k), w).

(** [os.environ[k]] *)
Definition environ_getitem (k : pystr) : Py pystr :=
  fun w =>
    match environ w !! k with
    | Some v => (Normal v, w)
    | None => (Raised (KeyError k), w)
    end.

(** [os.environ[k] = v] *)
Definition environ_setitem (k v : pystr) : Py unit :=
  fun w => (Normal tt,
            {| environ := <[k := v]> (environ w); outside := outside w;
               trace := trace w |}).

(** A call to a collaborator: it is observed, then answered. *)
Definition call {A} (c : Call pyfloat A) : Py A :=
  fun w =>
    let '(r, s) := respond A c (environ w) (outside w) in
    let w' := {| environ := environ w; outside := s;
                 trace := trace w ++ [EvCall c] |} in
    match r with
    | Returns a => (Normal a, w')
    | Raises e => (Raised e, w')
    end.

(** [getpass.getpass(prompt)]: the prompt is written, then the answer is
    read; when nothing can be read the exception is raised. *)
Definition getpass (prompt : pystr) : Py pystr :=
  fun w =>
    let '(r, s) := tty_getpass prompt (outside w) in
    let w' := {| environ := environ w; outside := s;
                 trace := trace w ++ [EvPrompt prompt] |} in
    match r with
    | Returns typed => (Normal typed, w')
    | Raises e => (Raised e, w')
    end.

(** [str(uuid4())] *)
Definition uuid4 : Py pystr :=
  fun w =>
    let '(u, s) := random_uuid4 (outside w) in
    (Normal u,
     {| environ := environ w; outside := s;
        trace := trace w ++ [EvUuid4 u] |}).

(** [not os.environ.get(var)]: the key is absent or holds the empty string. *)
Definition unset (env : gmap pystr pystr) (var : pystr) : bool :=
  match env !! var with
  | Some v => negb (truthy v)
  | None => true
  end.

(** The exit status the operating system sees: 0 when the script runs off
    its end, the argument of [sys.exit], and 1 when an exception reaches
    the top level. *)
Definition exit_status {A} (o : Outcome A) : Z :=
  match o with
  | Normal _ => 0
  | Raised _ => 1
  | SysExit code => code
  end.

End Primitives.

Definition nl : pystr := [10%N].

Definition DB_NAME : pystr := py "styva-demo".
Definition COLLECTION_NAME : pystr := py "docs".
Definition ATLAS_VECTOR_SEARCH_INDEX_NAME : pystr := py "docs-index-vectorstores".

(** ** Code the three scripts share *)

Definition AZURE_OPENAI_ENDPOINT := py "AZURE_OPENAI_ENDPOINT".
Definition AZURE_OPENAI_DEPLOYMENT_NAME := py "AZURE_OPENAI_DEPLOYMENT_NAME".
Definition AZURE_OPENAI_API_VERSION := py "AZURE_OPENAI_API_VERSION".
Definition AZURE_OPENAI_API_KEY := py "AZURE_OPENAI_API_KEY".
Definition MONGODB_ATLAS_CLUSTER_URI := py "MONGODB_ATLAS_CLUSTER_URI".

Section Shared.
Context `{External}.

(** [[var for var in required_vars if not os.environ.get(var)]] *)
Definition missing_vars (required_vars : list pystr) : Py (list pystr) :=
  fun w => (Normal (List.filter (unset (environ w)) required_vars), w).

(** [if missing_vars: logging.error(...); sys.exit(1)] *)
Definition check_required (required_vars : list pystr) : Py unit :=
  missing ← missing_vars required_vars;
  match missing with
  | [] => mret tt
  | _ :: _ =>
      logging_error (py "Missing required environment variables: "
                     ++ join (py ", ") missing);;
      sys_exit 1
  end.

(** [if not os.environ.get("AZURE_OPENAI_API_KEY"):
       os.environ["AZURE_OPENAI_API_KEY"] = getpass.getpass(...)] *)
Definition prompt_for_api_key : Py unit :=
  fun w =>
    if unset (environ w) AZURE_OPENAI_API_KEY
    then (typed ← getpass (py "Enter API key for Azure: ");
          environ_setitem AZURE_OPENAI_API_KEY typed) w
    else (Normal tt, w).

(** [AzureOpenAIEmbeddings(azure_endpoint=os.environ[...], ...)]: the
    keyword arguments are evaluated left to right, then the client is
    built. *)
Definition make_embeddings : Py AzureOpenAIEmbeddings :=
  endpoint ← environ_getitem AZURE_OPENAI_ENDPOINT;
  deployment ← environ_getitem AZURE_OPENAI_DEPLOYMENT_NAME;
  version ← environ_getitem AZURE_OPENAI_API_VERSION;
  let e := {| azure_endpoint := endpoint; azure_deployment := deployment;
              openai_api_version := version |} in
  call (new_AzureOpenAIEmbeddings e);;
  mret e.

(** [[m() for _ in range(n)]] *)
Fixpoint repeat_py {A} (n : nat) (m : Py A) : Py (list A) :=
  match n with
  | O => mret []
  | S n' => x ← m; xs ← repeat_py n' m; mret (x :: xs)
  end.

End Shared.

(** ** create_vector_search_index.py *)

Module Provisioner.
Section Script.
Context `{External}.

Definition main : Py unit :=
  prompt_for_api_key;;
  embeddings ← make_embeddings;
  uri ← environ_get MONGODB_ATLAS_CLUSTER_URI;
  let client := {| host := uri |} in
  call (new_MongoClient client);;
  let MONGODB_COLLECTION :=
    {| coll_client := client; coll_db := DB_NAME; coll_name := COLLECTION_NAME |} in
  let vector_store :=
    from_collection MONGODB_COLLECTION embeddings
                    ATLAS_VECTOR_SEARCH_INDEX_NAME (py "cosine") in
  call (new_MongoDBAtlasVectorSearch vector_store);;
  call (create_vector_search_index vector_store 1536).

End Script.
End Provisioner.

(** ** gen_text_embedding.py *)

Module Seeder.

Definition required_vars : list pystr :=
  [AZURE_OPENAI_ENDPOINT; AZURE_OPENAI_DEPLOYMENT_NAME;
   AZURE_OPENAI_API_VERSION; MONGODB_ATLAS_CLUSTER_URI].

Definition doc (content source : string) : Document :=
  {| page_content := py content;
     metadata := {[ py "source" := py source ]} |}.

Definition documents : list Document :=
  [ doc "I had chocalate chip pancakes and scrambled eggs for breakfast this morning." "tweet";
    doc "The weather forecast for tomorrow is cloudy and overcast, with a high of 62 degrees." "news";
    doc "Building an exciting new project with LangChain - come check it out!" "tweet";
    doc "Robbers broke into the city bank and stole $1 million in cash." "news";
    doc "Wow! That was an amazing movie. I can't wait to see it again." "tweet";
    doc "Is the new iPhone worth the price? Read this review to find out." "website";
    doc "The top 10 soccer players in the world right now." "website";
    doc "LangGraph is the best framework for building stateful, agentic applications!" "tweet";
    doc "The stock market is down 500 points today due to fears of a recession." "news";
    doc "I have a bad feeling I am going to get deleted :(" "tweet" ].

Definition query : pystr := py "What's the weather like?".

Section Script.
Context `{External}.

Definition init_embeddings : Py AzureOpenAIEmbeddings :=
  try_except
    (logging_info (py "Initializing Azure OpenAI embeddings...");;
     embeddings ← make_embeddings;
     try_except
       (test_embedding ← call (embed_query embeddings (py "Test embedding"));
        logging_info (py "Successfully generated test embedding (length: "
                      ++ str_of_nat (length test_embedding) ++ py ")"))
       (fun e =>
          logging_error (py "Error generating test embedding: " ++ str_exc e);;
          sys_exit 1);;
     mret embeddings)
    (fun e =>
       logging_error (py "Error initializing Azure OpenAI embeddings: " ++ str_exc e);;
       sys_exit 1).

Definition connect (uri : option pystr) : Py MongoClient :=
  try_except
    (logging_info (py "Connecting to MongoDB Atlas...");;
     let client := {| host := uri |} in
     call (new_MongoClient client);;
     call (admin_command client (py "ping"));;
     logging_info (py "Successfully connected to MongoDB Atlas");;
     mret client)
    (fun e =>
       logging_error (py "Error connecting to MongoDB Atlas: " ++ str_exc e);;
       sys_exit 1).

Definition init_vector_store (uri : option pystr)
    (embeddings : AzureOpenAIEmbeddings) : Py MongoDBAtlasVectorSearch :=
  try_except
    (logging_info (py "Initializing MongoDB Atlas vector store...");;
     let vector_store :=
       from_connection_string uri (DB_NAME ++ py "." ++ COLLECTION_NAME)
                              embeddings ATLAS_VECTOR_SEARCH_INDEX_NAME in
     call (new_MongoDBAtlasVectorSearch vector_store);;
     logging_info (py "Successfully initialized vector store");;
     mret vector_store)
    (fun e =>
       logging_error (py "Error initializing vector store: " ++ str_exc e);;
       sys_exit 1).

Definition seed (vector_store : MongoDBAtlasVectorSearch)
    (uuids : list pystr) : Py unit :=
  try_except
    (logging_info (py "Adding " ++ str_of_nat (length documents)
                   ++ py " documents to vector store...");;
     call (add_documents vector_store documents uuids);;
     logging_info (py "Successfully added documents to vector store");;
     logging_info (py "Testing vector search with query: '" ++ query ++ py "'");;
     results ← call (similarity_search vector_store query 2);
     logging_info (py "Search results: "
                   ++ str_of_list (map page_content results)))
    (fun e =>
       logging_error (py "Error adding documents to vector store: " ++ str_exc e);;
       sys_exit 1).

Definition main : Py unit :=
  check_required required_vars;;
  prompt_for_api_key;;
  embeddings ← init_embeddings;
  uri ← environ_get MONGODB_ATLAS_CLUSTER_URI;
  client ← connect uri;
  let MONGODB_COLLECTION :=
    {| coll_client := client; coll_db := DB_NAME; coll_name := COLLECTION_NAME |} in
  vector_store ← init_vector_store uri embeddings;
  uuids ← repeat_py (length documents) uuid4;
  seed vector_store uuids;;
  logging_info (py "Script completed successfully").

End Script.
End Seeder.

(** ** vector_search_chatbot.py *)

Module Chatbot.

Definition required_vars : list pystr :=
  [AZURE_OPENAI_ENDPOINT; AZURE_OPENAI_DEPLOYMENT_NAME;
   AZURE_OPENAI_API_VERSION; AZURE_OPENAI_API_KEY; MONGODB_ATLAS_CLUSTER_URI].

(** One row of the [gr.Chatbot] value: the Python list [[user, bot]], each
    item [None] or a [str]. *)
Abbreviation ChatEntry := (list (option pystr)).

(** [enumerate(l, start)] *)
Fixpoint enumerate {A} (start : nat) (l : list A) : list (nat * A) :=
  match l with
  | [] => []
  | x :: l' => (start, x) :: enumerate (S start) l'
  end.

(** One turn of the loop that builds the response text. *)
Definition add_document (response : pystr) (item : nat * Document) : pystr :=
  let '(i, doc) := item in
  let response := response ++ (py "**Document " ++ str_of_nat i ++ py "**" ++ nl) in
  let response := response ++ (py "**Content:** " ++ page_content doc ++ nl) in
  response ++ (py "**Source:** "
               ++ default (py "Unknown") (metadata doc !! py "source")
               ++ nl ++ nl).

Definition format_results (results : list Document) : pystr :=
  fold_left add_document (enumerate 1 results)
            (py "Here's what I found:" ++ nl ++ nl).

Definition please_enter : pystr := py "Please enter a valid search query".
Definition nothing_found : pystr :=
  py "I couldn't find any relevant information for your query.".
Definition error_prefix : pystr := py "I encountered an error while searching: ".

(** The text of the welcome message, code point for code point as the
    source file stores it. *)
Definition welcome : pystr :=
  [240; 376; 8216; 8249]%N
  ++ py " Hello! I'm your vector search assistant. Ask me something about the documents in the database!".

Definition get_welcome_message : list ChatEntry := [[None; Some welcome]].

(** [gr.Slider(minimum, maximum, value, step)] *)
Record Slider := {
  minimum : Z;
  maximum : Z;
  value : Z;
  step : Z;
}.

Definition num_results_slider : Slider :=
  {| minimum := 1; maximum := 10; value := 3; step := 1 |}.

(** The positions the slider widget can be dragged to. *)
Definition slider_admits (s : Slider) (v : Z) : bool :=
  (minimum s <=? v) && (v <=? maximum s) && ((v - minimum s) mod step s =? 0).

(** What one browser session shows. *)
Record Session := {
  query_input : pystr;
  chatbot : list ChatEntry;
  num_results : Z;
}.

Definition initial_session : Session :=
  {| query_input := [];
     chatbot := get_welcome_message;
     num_results := value num_results_slider |}.

(** What the user can do on the page. *)
Inductive UIEvent :=
| type_query (text : pystr)
| move_slider (v : Z)
| submit_button_click
| query_input_submit
| clear_button_click.

Section Script.
Context `{External}.

(** Module top level, up to the construction of the page. *)
Definition init_embeddings : Py AzureOpenAIEmbeddings :=
  try_except
    (logging_info (py "Initializing Azure OpenAI embeddings...");;
     embeddings ← make_embeddings;
     logging_info (py "Successfully initialized embeddings");;
     mret embeddings)
    (fun e =>
       logging_error (py "Error initializing Azure OpenAI embeddings: " ++ str_exc e);;
       sys_exit 1).

Definition connect : Py MongoClient :=
  try_except
    (logging_info (py "Connecting to MongoDB Atlas...");;
     uri ← environ_getitem MONGODB_ATLAS_CLUSTER_URI;
     let client := {| host := Some uri |} in
     call (new_MongoClient client);;
     call (admin_command client (py "ping"));;
     logging_info (py "Successfully connected to MongoDB Atlas");;
     mret client)
    (fun e =>
       logging_error (py "Error connecting to MongoDB Atlas: " ++ str_exc e);;
       sys_exit 1).

Definition init_vector_store (embeddings : AzureOpenAIEmbeddings)
  : Py MongoDBAtlasVectorSearch :=
  try_except
    (logging_info (py "Initializing MongoDB Atlas vector store...");;
     uri ← environ_getitem MONGODB_ATLAS_CLUSTER_URI;
     let vector_store :=
       from_connection_string (Some uri) (DB_NAME ++ py "." ++ COLLECTION_NAME)
                              embeddings ATLAS_VECTOR_SEARCH_INDEX_NAME in
     call (new_MongoDBAtlasVectorSearch vector_store);;
     logging_info (py "Successfully initialized vector store");;
     mret vector_store)
    (fun e =>
       logging_error (py "Error initializing vector store: " ++ str_exc e);;
       sys_exit 1).

Definition startup : Py MongoDBAtlasVectorSearch :=
  check_required required_vars;;
  embeddings ← init_embeddings;
  client ← connect;
  init_vector_store embeddings.

(** The handlers read the module-level [vector_store]. *)
Section Handlers.
Variable vector_store : MongoDBAtlasVectorSearch.

(** [num_results] has the default 3 in the source; its one caller,
    [on_submit], always passes it. *)
Definition search_documents (query : pystr) (chat_history : list ChatEntry)
    (num_results : Z) : Py (list ChatEntry) :=
  try_except
    (if negb (truthy (strip query)) then
       mret (chat_history ++ [[Some query; Some please_enter]])
     else
       logging_info (py "Searching for: '" ++ query ++ py "'");;
       results ← call (similarity_search vector_store query num_results);
       match results with
       | [] => mret (chat_history ++ [[Some query; Some nothing_found]])
       | _ :: _ =>
           let response := format_results results in
           mret (chat_history ++ [[Some query; Some response]])
       end)
    (fun e =>
       logging_error (py "Error during search: " ++ str_exc e);;
       let error_message := error_prefix ++ str_exc e in
       mret (chat_history ++ [[Some query; Some error_message]])).

Definition on_submit (message : pystr) (chat_history : list ChatEntry)
    (num_results : Z) : Py (pystr * list ChatEntry) :=
  if bool_decide (strip message = []) then
    mret ([], chat_history)
  else
    history ← search_documents message chat_history num_results;
    mret ([], history).

(** The wiring of the page: which component values a handler receives and
    which ones its results replace. *)
Definition submit (s : Session) : Py Session :=
  '(text, history) ← on_submit (query_input s) (chatbot s) (num_results s);
  mret {| query_input := text; chatbot := history;
          num_results := num_results s |}.

Definition dispatch (ev : UIEvent) (s : Session) : Py Session :=
  match ev with
  | type_query text =>
      mret {| query_input := text; chatbot := chatbot s;
              num_results := num_results s |}
  | move_slider v =>
      mret (if slider_admits num_results_slider v
            then {| query_input := query_input s; chatbot := chatbot s;
                    num_results := v |}
            else s)
  | submit_button_click => submit s
  | query_input_submit => submit s
  | clear_button_click =>
      mret {| query_input := query_input s;
              chatbot := get_welcome_message;
              num_results := num_results s |}
  end.

(** [demo.launch()]: serve the user's actions one after the other.  An
    exception that escapes a handler is reported by the framework and
    leaves the page as it was. *)
Fixpoint launch (events : list UIEvent) (s : Session) : Py Session :=
  match events with
  | [] => mret s
  | ev :: events' =>
      s' ← try_except (dispatch ev s) (fun _ => mret s);
      launch events' s'
  end.

End Handlers.

Definition main (events : list UIEvent) : Py Session :=
  vector_store ← startup;
  logging_info (py "Starting Gradio chatbot application...");;
  s ← launch vector_store events initial_session;
  logging_info (py "Gradio application closed");;
  mret s.

End Script.
End Chatbot.

(** ** Reading a run *)

Section Observations.
Context `{External}.

(** The events a piece of code added to the trace. *)
Definition news (w w' : World) : list Event :=
  drop (length (trace w)) (trace w').




Definition is_uuid4 (ev : Event) : bool :=
  match ev with EvUuid4 _ => true | _ => false end.

(** A computation that leaves the environment as it is and adds to the
    trace only events that satisfy [P]. *)
Definition confined {A} (P : Event -> bool) (m : Py A) : Prop :=
  forall w, environ (m w).2 = environ w
            /\ exists t, trace (m w).2 = trace w ++ t /\ forallb P t = true.

(** Events that do not go over the network. *)
Definition no_network (ev : Event) : bool := negb (is_network ev).



(** Events that are neither an upsert, nor a search, nor a random draw. *)
Definition groundwork (ev : Event) : bool :=
  negb (is_add_documents ev || is_similarity_search ev || is_uuid4 ev).

(** Events that are neither an upsert nor a search. *)
Definition no_upsert_or_search (ev : Event) : bool :=
  negb (is_add_documents ev || is_similarity_search ev).

End Observations.

(** ** A laboratory world

    A concrete instance of the collaborators, used to run the scripts on
    explicit inputs: the similarity search and the password prompt answer
    with replies fixed in advance, every other call succeeds and the random
    source counts. *)

Module Lab.

Record State := {
  search_reply : Reply (list Document);
  prompt_reply : Reply pystr;
  next_uuid : nat;
}.

(** The laboratory's Unicode table, exact on Latin-1: the C1 controls, the
    no-break space and the soft hyphen are not printable.  No run below
    prints a code point beyond Latin-1 through [repr]. *)
Definition latin1_printable (c : N) : bool :=
  negb (((127 <=? c) && (c <=? 160)) || (c =? 173))%N.

Definition answer (A : Type) (c : Call Z A) (env : gmap pystr pystr)
    (s : State) : Reply A * State :=
  match c in Call _ A return Reply A * State with
  | new_AzureOpenAIEmbeddings _ => (Returns tt, s)
  | embed_query _ _ => (Returns (repeat 0 1536), s)
  | new_MongoClient _ => (Returns tt, s)
  | admin_command _ _ => (Returns tt, s)
  | new_MongoDBAtlasVectorSearch _ => (Returns tt, s)
  | add_documents _ _ ids => (Returns ids, s)
  | similarity_search _ _ k =>
      (match search_reply s with
       | Returns docs => Returns (take (Z.to_nat k) docs)
       | Raises e => Raises e
       end, s)
  | create_vector_search_index _ _ => (Returns tt, s)
  end.

Definition world : External :=
  {| svc := State;
     pyfloat := Z;
     respond := answer;
     tty_getpass := fun _ s => (prompt_reply s, s);
     random_uuid4 := fun s =>
       (py "uuid-" ++ str_of_nat (next_uuid s),
        {| search_reply := search_reply s; prompt_reply := prompt_reply s;
           next_uuid := S (next_uuid s) |});
     isprintable := latin1_printable |}.


Definition state (reply : Reply (list Document)) : State :=
  {| search_reply := reply; prompt_reply := Returns (py "secret");
     next_uuid := 0 |}.


(** A process started with environment [env]. *)
Definition boot (env : gmap pystr pystr) (reply : Reply (list Document))
  : @World world :=
  @Build_World world env (state reply) [].



Definition full_env : gmap pystr pystr :=
  {[ AZURE_OPENAI_ENDPOINT := py "https://example.openai.azure.com/";
     AZURE_OPENAI_DEPLOYMENT_NAME := py "text-embedding-3-small";
     AZURE_OPENAI_API_VERSION := py "2024-02-01";
     AZURE_OPENAI_API_KEY := py "secret";
     MONGODB_ATLAS_CLUSTER_URI := py "mongodb+srv://cluster0.example.mongodb.net" ]}.

Definition timeout : PyException :=
  Error (py "ServerSelectionTimeoutError") (py "No replica set members found yet").

Definition a_store : MongoDBAtlasVectorSearch :=
  from_connection_string
    (Some (py "mongodb+srv://cluster0.example.mongodb.net"))
    (DB_NAME ++ py "." ++ COLLECTION_NAME)
    {| azure_endpoint := py "https://example.openai.azure.com/";
       azure_deployment := py "text-embedding-3-small";
       openai_api_version := py "2024-02-01" |}
    ATLAS_VECTOR_SEARCH_INDEX_NAME.

End Lab.

(** ** Vocabulary of the statements *)

Section Vocabulary.
Context `{External}.
Variable vector_store : MongoDBAtlasVectorSearch.

(** What the collection answers to the search of [q] with [k] results. *)
Definition search_reply (q : pystr) (k : Z) (w : World) : Reply (list Document) :=
  (respond _ (similarity_search vector_store q k) (environ w) (outside w)).1.

(** The world once the search was logged and made. *)
Definition searched (q : pystr) (k : Z) (w : World) : World :=
  {| environ := environ w;
     outside := (respond _ (similarity_search vector_store q k)
                         (environ w) (outside w)).2;
     trace := trace w ++ [EvLog INFO (py "Searching for: '" ++ q ++ py "'");
                          EvCall (similarity_search vector_store q k)] |}.

(** A submission that is settled without the network and adds one entry
    to the conversation. *)
Definition answered_locally (s : Chatbot.Session) (w : World) : Prop :=
  exists s' w' entry,
    Chatbot.submit vector_store s w = (Normal s', w')
    /\ List.filter is_network (news w w') = []
    /\ Chatbot.chatbot s' = Chatbot.chatbot s ++ [entry].

End Vocabulary.


(** What the terminal answers to the API-key prompt at the start of [w]. *)
Definition prompt_answer `{External} (w : World) : Reply pystr :=
  (tty_getpass (py "Enter API key for Azure: ") (outside w)).1.

(** ** Vocabulary of the further statements *)

Section MoreVocabulary.
Context `{External}.

Definition is_create_index (ev : Event) : bool :=
  match ev with EvCall (create_vector_search_index _ _) => true | _ => false end.

(** Events of a process that only reads the collection: no upsert, no index
    request, no prompt, no random draw. *)
Definition read_only (ev : Event) : bool :=
  negb (is_add_documents ev || is_create_index ev || is_prompt ev || is_uuid4 ev).

(** A similarity search, if the event is one, has a query with text and a
    number of results within the slider's range. *)
Definition sound_search (ev : Event) : bool :=
  match ev with
  | EvCall (similarity_search _ q k) => negb (blank q) && (1 <=? k) && (k <=? 10)
  | _ => true
  end.

(** A stretch of trace whose last event is an error line, the only one. *)
Definition ends_in_error (t : list Event) : Prop :=
  exists pre msg,
    t = pre ++ [EvLog ERROR msg] /\ List.filter is_error_log pre = [].

(** The error discipline of the one-shot code: the trace only grows; an exit
    has status 1 and comes right after the one error line; a computation
    that returns or raises has logged no error. *)
Definition disciplined {A} (m : Py A) : Prop :=
  forall w, exists t,
    trace (m w).2 = trace w ++ t
    /\ match (m w).1 with
       | SysExit c => c = 1 /\ ends_in_error t
       | _ => List.filter is_error_log t = []
       end.

(** Disciplined code that lets no exception escape. *)
Definition guarded {A} (m : Py A) : Prop :=
  disciplined m /\ forall w e, (m w).1 <> Raised e.

End MoreVocabulary.

(** The text [add_document] appends for the document numbered [i]. *)
Definition document_block (item : nat * Document) : pystr :=
  (py "**Document " ++ str_of_nat item.1 ++ py "**" ++ nl)
  ++ (py "**Content:** " ++ page_content item.2 ++ nl)
  ++ (py "**Source:** "
      ++ default (py "Unknown") (metadata item.2 !! py "source")
      ++ nl ++ nl).

(** The shape of what a run of the Seeder sends to the collection: nothing;
    or one upsert of the fixed documents with one identifier each, followed
    by nothing more or by one search, of the fixed query with k = 2 on the
    same vector store. *)
Definition upsert_then_search `{External} (t : list Event) : Prop :=
  forallb no_upsert_or_search t = true
  \/ exists pre vector_store ids post,
       t = pre ++ EvCall (add_documents vector_store Seeder.documents ids) :: post
       /\ forallb no_upsert_or_search pre = true
       /\ length ids = length Seeder.documents
       /\ (forallb no_upsert_or_search post = true
           \/ exists mid post',
                post = mid ++ EvCall (similarity_search vector_store Seeder.query 2)
                           :: post'
                /\ forallb no_upsert_or_search (mid ++ post') = true).

Definition is_submission (ev : Chatbot.UIEvent) : bool :=
  match ev with
  | Chatbot.submit_button_click | Chatbot.query_input_submit => true
  | _ => false
  end.

Definition is_clear (ev : Chatbot.UIEvent) : bool :=
  match ev with Chatbot.clear_button_click => true | _ => false end.

(** * Properties *)

(** String literals stay folded while the scripts are stepped through. *)
#[global] Opaque py.

(** ** Strings *)

Section StringFacts.

Lemma lstrip_nil_iff s : lstrip s = [] <-> blank s = true.
Proof.
  induction s as [|c s IH]; simpl; [tauto|].
  destruct (isspace c); simpl; [exact IH|].
  split; discriminate.
Qed.

Lemma blank_rev s : blank (rev s) = blank s.
Proof.
  unfold blank. induction s as [|c s IH]; simpl; [reflexivity|].
  rewrite forallb_app, IH. simpl. rewrite andb_true_r. apply andb_comm.
Qed.

Lemma lstrip_suffix s : exists p, s = p ++ lstrip s /\ blank p = true.
Proof.
  induction s as [|c s [p [Hp Hb]]]; simpl.
  - exists []. split; reflexivity.
  - destruct (isspace c) eqn:Hc.
    + exists (c :: p). simpl. rewrite Hc, Hb. split; [congruence|reflexivity].
    + exists []. split; reflexivity.
Qed.

Lemma strip_nil_iff s : strip s = [] <-> blank s = true.
Proof.
  unfold strip, rstrip. split.
  - intros H. apply (f_equal (@rev N)) in H. rewrite rev_involutive in H.
    simpl in H. apply lstrip_nil_iff in H. rewrite blank_rev in H.
    destruct (lstrip_suffix s) as [p [Hp Hb]].
    rewrite Hp. unfold blank in *. rewrite forallb_app, Hb, H. reflexivity.
  - intros H. apply lstrip_nil_iff in H. rewrite H. reflexivity.
Qed.

Lemma startswith_app p s : startswith p (p ++ s) = true.
Proof.
  induction p as [|a p IH]; simpl; [reflexivity|].
  rewrite N.eqb_refl. exact IH.
Qed.

Lemma contains_app_r needle pre post :
  contains needle post = true -> contains needle (pre ++ post) = true.
Proof.
  intros H. induction pre as [|a pre IH]; simpl; [exact H|].
  rewrite IH. apply orb_true_r.
Qed.

Lemma contains_prefix needle post : contains needle (needle ++ post) = true.
Proof.
  destruct (needle ++ post) eqn:E; simpl;
    rewrite <- E, startswith_app; reflexivity.
Qed.

Lemma contains_middle needle pre post :
  contains needle (pre ++ needle ++ post) = true.
Proof. apply contains_app_r, contains_prefix. Qed.

End StringFacts.

(** ** The monad *)

Section MonadFacts.
Context `{External}.

Lemma bind_run {A B} (m : Py A) (k : A -> Py B) w :
  (m ≫= k) w =
  match m w with
  | (Normal a, w') => k a w'
  | (Raised e, w') => (Raised e, w')
  | (SysExit c, w') => (SysExit c, w')
  end.
Proof. reflexivity. Qed.

Lemma bind_Normal {A B} (m : Py A) (k : A -> Py B) w b w' :
  (m ≫= k) w = (Normal b, w') ->
  exists a w1, m w = (Normal a, w1) /\ k a w1 = (Normal b, w').
Proof.
  rewrite bind_run. destruct (m w) as [[a|e|c] w1]; try discriminate.
  intros Hk. exists a, w1. split; [reflexivity|exact Hk].
Qed.

(** A handler that logs and exits never lets its [try] return late. *)
Lemma try_exit_Normal {A} (body : Py A) (msg : PyException -> pystr) code w a w' :
  try_except body (fun e => logging_error (msg e);; sys_exit code) w
  = (Normal a, w') ->
  body w = (Normal a, w').
Proof.
  unfold try_except. destruct (body w) as [[a'|e|c] w1]; try discriminate.
  intros Hk. exact Hk.
Qed.

Lemma emit_run ev w :
  emit ev w = (Normal tt, {| environ := environ w; outside := outside w;
                             trace := trace w ++ [ev] |}).
Proof. reflexivity. Qed.

Lemma call_Normal {A} (c : Call pyfloat A) w a w' :
  call c w = (Normal a, w') ->
  trace w' = trace w ++ [EvCall c] /\ environ w' = environ w
  /\ (respond A c (environ w) (outside w)).1 = Returns a.
Proof.
  unfold call. destruct (respond A c (environ w) (outside w)) as [[a'|e] s].
  - intros [= <- <-]. simpl. auto.
  - discriminate.
Qed.

Lemma news_app w w' t : trace w' = trace w ++ t -> news w w' = t.
Proof. intros E. unfold news. rewrite E. apply drop_app_length. Qed.

Lemma news_refl w : news w w = [].
Proof. apply news_app. symmetry. apply app_nil_r. Qed.

End MonadFacts.

(** ** The search handler *)

Section HandlerFacts.
Context `{External}.
Variable vector_store : MongoDBAtlasVectorSearch.

Import Chatbot.

Lemma strip_of_blank q : blank q = true -> strip q = [].
Proof. apply strip_nil_iff. Qed.

Lemma strip_of_text q : blank q = false -> strip q <> [].
Proof. intros Hb Hs. apply strip_nil_iff in Hs. congruence. Qed.

Lemma search_documents_blank q h k w :
  blank q = true ->
  search_documents vector_store q h k w
  = (Normal (h ++ [[Some q; Some please_enter]]), w).
Proof.
  intros Hb. unfold search_documents, try_except.
  rewrite (strip_of_blank q Hb). reflexivity.
Qed.

Lemma search_documents_text q h k w :
  blank q = false ->
  search_documents vector_store q h k w
  = match search_reply vector_store q k w with
    | Returns [] =>
        (Normal (h ++ [[Some q; Some nothing_found]]), searched vector_store q k w)
    | Returns results =>
        (Normal (h ++ [[Some q; Some (format_results results)]]),
         searched vector_store q k w)
    | Raises e =>
        (Normal (h ++ [[Some q; Some (error_prefix ++ str_exc e)]]),
         {| environ := environ w; outside := outside (searched vector_store q k w);
            trace := trace (searched vector_store q k w)
                     ++ [EvLog ERROR (py "Error during search: " ++ str_exc e)] |})
    end.
Proof.
  intros Hb. apply strip_of_text in Hb.
  unfold search_documents, try_except, search_reply, searched.
  destruct (strip q) as [|c s] eqn:Hs; [congruence|].
  cbn [truthy negb]. rewrite !bind_run. unfold logging_info. rewrite emit_run.
  rewrite bind_run. unfold call. cbn [environ outside trace].
  destruct (respond (list Document) (similarity_search vector_store q k)
                    (environ w) (outside w)) as [[[|d ds]|e] s'];
    unfold logging_error; rewrite ?bind_run, ?emit_run; cbn;
    rewrite <- ?app_assoc; reflexivity.
Qed.

Lemma on_submit_blank m h k w :
  blank m = true -> on_submit vector_store m h k w = (Normal ([], h), w).
Proof.
  intros Hb. unfold on_submit.
  rewrite bool_decide_eq_true_2 by (apply strip_of_blank, Hb). reflexivity.
Qed.

Lemma on_submit_text m h k w :
  blank m = false ->
  on_submit vector_store m h k w
  = match search_documents vector_store m h k w with
    | (Normal h', w') => (Normal ([], h'), w')
    | (Raised e, w') => (Raised e, w')
    | (SysExit c, w') => (SysExit c, w')
    end.
Proof.
  intros Hb. unfold on_submit.
  rewrite bool_decide_eq_false_2 by (apply strip_of_text, Hb).
  rewrite bind_run. destruct (search_documents _ _ _ _ _) as [[?|?|?] ?]; reflexivity.
Qed.

(** The handler always returns: no exception and no exit leaves it. *)
Lemma search_documents_returns q h k w :
  exists response w',
    search_documents vector_store q h k w
    = (Normal (h ++ [[Some q; Some response]]), w').
Proof.
  destruct (blank q) eqn:Hb.
  - rewrite search_documents_blank by exact Hb. eauto.
  - rewrite search_documents_text by exact Hb.
    destruct (search_reply vector_store q k w) as [[|d ds]|e]; eauto.
Qed.

Lemma on_submit_returns m h k w :
  exists h' w', on_submit vector_store m h k w = (Normal ([], h'), w').
Proof.
  destruct (blank m) eqn:Hb.
  - rewrite on_submit_blank by exact Hb. eauto.
  - rewrite on_submit_text by exact Hb.
    destruct (search_documents_returns m h k w) as (r & w' & ->). eauto.
Qed.

Lemma submit_run s w :
  submit vector_store s w
  = match on_submit vector_store (query_input s) (chatbot s) (num_results s) w with
    | (Normal (text, history), w') =>
        (Normal {| query_input := text; chatbot := history;
                   num_results := num_results s |}, w')
    | (Raised e, w') => (Raised e, w')
    | (SysExit c, w') => (SysExit c, w')
    end.
Proof.
  unfold submit. rewrite bind_run.
  destruct (on_submit _ _ _ _ _) as [[[? ?]|?|?] ?]; reflexivity.
Qed.

Lemma dispatch_returns ev s w :
  exists s' w', dispatch vector_store ev s w = (Normal s', w').
Proof.
  assert (Hsub : exists s' w', submit vector_store s w = (Normal s', w')).
  { rewrite submit_run.
    destruct (on_submit_returns (query_input s) (chatbot s) (num_results s) w)
      as (h' & w' & ->). eauto. }
  destruct ev; simpl; eauto.
Qed.

Lemma launch_returns events : forall s w,
  exists s' w', launch vector_store events s w = (Normal s', w').
Proof.
  induction events as [|ev events IH]; intros s w; simpl.
  - eexists _, _. reflexivity.
  - rewrite bind_run. unfold try_except.
    destruct (dispatch_returns ev s w) as (s1 & w1 & ->). apply IH.
Qed.

End HandlerFacts.

(** ** The page *)

Section PageFacts.
Context `{External}.
Variable vector_store : MongoDBAtlasVectorSearch.

Import Chatbot.

Lemma submit_blank s w :
  blank (query_input s) = true ->
  submit vector_store s w
  = (Normal {| query_input := []; chatbot := chatbot s;
               num_results := num_results s |}, w).
Proof.
  intros Hb. rewrite submit_run, on_submit_blank by exact Hb. reflexivity.
Qed.

Lemma submit_text s w :
  blank (query_input s) = false ->
  submit vector_store s w
  = match search_documents vector_store (query_input s) (chatbot s)
                           (num_results s) w with
    | (Normal h', w') =>
        (Normal {| query_input := []; chatbot := h';
                   num_results := num_results s |}, w')
    | (Raised e, w') => (Raised e, w')
    | (SysExit c, w') => (SysExit c, w')
    end.
Proof.
  intros Hb. rewrite submit_run, on_submit_text by exact Hb.
  destruct (search_documents _ _ _ _ _) as [[?|?|?] ?]; reflexivity.
Qed.

(** A submission with text makes one search, with the session's current
    number of results. *)
Lemma submit_text_searches s w :
  blank (query_input s) = false ->
  exists h' w',
    submit vector_store s w
    = (Normal {| query_input := []; chatbot := h';
                 num_results := num_results s |}, w')
    /\ List.filter is_similarity_search (news w w')
       = [EvCall (similarity_search vector_store (query_input s) (num_results s))].
Proof.
  intros Hb. rewrite submit_text, search_documents_text by exact Hb.
  destruct (search_reply _ _ _ _) as [[|d ds]|e]; eexists _, _;
    (split; [reflexivity|]).
  1,2: erewrite news_app; [|unfold searched; cbn [trace]; reflexivity];
       reflexivity.
  erewrite news_app;
    [|unfold searched; cbn [trace]; rewrite <- app_assoc; reflexivity].
  reflexivity.
Qed.

Lemma submit_keeps_num_results s w s' w' :
  submit vector_store s w = (Normal s', w') -> num_results s' = num_results s.
Proof.
  rewrite submit_run.
  destruct (on_submit _ _ _ _ _) as [[[? ?]|?|?] ?]; try discriminate.
  intros [= <- _]. reflexivity.
Qed.

Lemma slider_admits_bounds v :
  slider_admits num_results_slider v = true -> 1 <= v <= 10.
Proof.
  unfold slider_admits. simpl. intros Hv.
  apply andb_prop in Hv as [Hv _]. apply andb_prop in Hv as [H1 H2]. lia.
Qed.

Lemma dispatch_num_results ev s w s' w' :
  1 <= num_results s <= 10 ->
  dispatch vector_store ev s w = (Normal s', w') ->
  1 <= num_results s' <= 10.
Proof.
  intros Hs. destruct ev; simpl.
  - intros [= <- _]. exact Hs.
  - destruct (slider_admits num_results_slider v) eqn:Hv; intros [= <- _].
    + simpl. apply slider_admits_bounds, Hv.
    + exact Hs.
  - intros Hd. rewrite (submit_keeps_num_results _ _ _ _ Hd). exact Hs.
  - intros Hd. rewrite (submit_keeps_num_results _ _ _ _ Hd). exact Hs.
  - intros [= <- _]. exact Hs.
Qed.

Lemma launch_num_results events : forall s w s' w',
  1 <= num_results s <= 10 ->
  launch vector_store events s w = (Normal s', w') ->
  1 <= num_results s' <= 10.
Proof.
  induction events as [|ev events IH]; intros s w s' w' Hs; simpl.
  - intros [= <- _]. exact Hs.
  - rewrite bind_run. unfold try_except.
    destruct (dispatch_returns vector_store ev s w) as (s1 & w1 & Hd).
    rewrite Hd. apply IH. eapply dispatch_num_results; eauto.
Qed.

Lemma launch_cons ev events s w s1 w1 :
  dispatch vector_store ev s w = (Normal s1, w1) ->
  launch vector_store (ev :: events) s w = launch vector_store events s1 w1.
Proof.
  intros Hd. simpl. rewrite bind_run. unfold try_except. rewrite Hd. reflexivity.
Qed.

Lemma news_trans w1 w2 w3 t1 t2 :
  trace w2 = trace w1 ++ t1 -> trace w3 = trace w2 ++ t2 ->
  news w1 w3 = t1 ++ t2.
Proof.
  intros E1 E2. apply news_app. rewrite E2, E1. symmetry. apply app_assoc.
Qed.

(** The trace only grows. *)
Lemma search_documents_trace q h k w :
  exists t, trace (search_documents vector_store q h k w).2 = trace w ++ t.
Proof.
  destruct (blank q) eqn:Hb.
  - rewrite search_documents_blank by exact Hb. exists []. simpl.
    symmetry. apply app_nil_r.
  - rewrite search_documents_text by exact Hb.
    destruct (search_reply _ _ _ _) as [[|d ds]|e]; simpl;
      rewrite <- ?app_assoc; eauto.
Qed.

Lemma submit_trace s w :
  trace (submit vector_store s w).2
  = trace w ++ news w (submit vector_store s w).2.
Proof.
  destruct (blank (query_input s)) eqn:Hb.
  - rewrite submit_blank by exact Hb. simpl. rewrite news_refl.
    symmetry. apply app_nil_r.
  - rewrite submit_text by exact Hb.
    destruct (search_documents_trace (query_input s) (chatbot s) (num_results s) w)
      as [t Ht].
    destruct (search_documents _ _ _ _ _) as [[?|?|?] w']; simpl in *;
      rewrite (news_app _ _ _ Ht); exact Ht.
Qed.

End PageFacts.

(** ** Claims about the page *)

Section PageClaims.
Context `{External}.
Variable vector_store : MongoDBAtlasVectorSearch.

Import Chatbot.

(** C1, as the code has it: a submission whose query is empty or only
    whitespace is dropped by [on_submit] itself.  The world is untouched (no
    call, network or other, and no log line), the text box is cleared and
    the conversation is the one that was shown before: no entry is added.
    The instructional message is what [search_documents] returns, as one new
    entry, when it is handed such a query directly. *)
Theorem blank_submission_is_dropped (s : Session) (w : World) :
  blank (query_input s) = true ->
  submit vector_store s w
  = (Normal {| query_input := []; chatbot := chatbot s;
               num_results := num_results s |}, w)
  /\ List.filter is_network (news w w) = []
  /\ search_documents vector_store (query_input s) (chatbot s) (num_results s) w
     = (Normal (chatbot s ++ [[Some (query_input s); Some please_enter]]), w).
Proof.
  intros Hb. split; [apply submit_blank, Hb|].
  split; [rewrite news_refl; reflexivity|].
  apply search_documents_blank, Hb.
Qed.

(** C3: when the similarity search of a submission raises [e], the handler
    returns normally, the conversation gains the one entry
    [[query, "I encountered an error while searching: " + str(e)]], whose
    text contains [str(e)], and the page goes on serving whatever the user
    does next: no sequence of actions makes [launch] raise or exit. *)
Theorem search_failure_is_shown (s : Session) (w : World) (e : PyException) :
  blank (query_input s) = false ->
  search_reply vector_store (query_input s) (num_results s) w = Raises e ->
  (exists w',
      submit vector_store s w
      = (Normal {| query_input := [];
                   chatbot := chatbot s ++ [[Some (query_input s);
                                             Some (error_prefix ++ str_exc e)]];
                   num_results := num_results s |}, w'))
  /\ contains (str_exc e) (error_prefix ++ str_exc e) = true
  /\ (forall events s0 w0,
         exists s' w', launch vector_store events s0 w0 = (Normal s', w')).
Proof.
  intros Hb He. split; [|split].
  - rewrite submit_text, search_documents_text by exact Hb. rewrite He. eauto.
  - rewrite <- (app_nil_r (str_exc e)) at 2. apply contains_middle.
  - intros events s0 w0. apply launch_returns.
Qed.

(** C4: the clear button replaces the conversation, whatever it was, by the
    single welcome entry and leaves the world as it is: nothing is called,
    so nothing reaches the collection. *)
Theorem clear_resets_conversation (s : Session) (w : World) :
  dispatch vector_store clear_button_click s w
  = (Normal {| query_input := query_input s;
               chatbot := [[None; Some welcome]];
               num_results := num_results s |}, w)
  /\ length get_welcome_message = 1%nat
  /\ news w w = [].
Proof.
  split; [reflexivity|]. split; [reflexivity|]. apply news_refl.
Qed.

(** C5: when the similarity search of a submission returns no document, the
    conversation gains the one entry [[query, "I couldn't find any relevant
    information for your query."]], and the run logs no error: the
    [except] branch is not taken. *)
Theorem empty_result_is_not_an_error (s : Session) (w : World) :
  blank (query_input s) = false ->
  search_reply vector_store (query_input s) (num_results s) w = Returns [] ->
  submit vector_store s w
  = (Normal {| query_input := [];
               chatbot := chatbot s ++ [[Some (query_input s); Some nothing_found]];
               num_results := num_results s |},
     searched vector_store (query_input s) (num_results s) w)
  /\ List.filter is_error_log
       (news w (searched vector_store (query_input s) (num_results s) w)) = [].
Proof.
  intros Hb He. split.
  - rewrite submit_text, search_documents_text by exact Hb. rewrite He.
    reflexivity.
  - erewrite news_app; [|unfold searched; cbn [trace]; reflexivity].
    reflexivity.
Qed.

(** C6: the slider runs from 1 to 10 in steps of 1 and starts at 3; whatever
    the user does, the number of results of the session stays within 1..10;
    a submission with text searches with the number the session shows at
    that moment, so a second submission made after the slider was moved
    searches with the new number. *)
Theorem num_results_is_bounded_and_read_at_submission :
  (minimum num_results_slider = 1 /\ maximum num_results_slider = 10
   /\ value num_results_slider = 3 /\ step num_results_slider = 1
   /\ num_results initial_session = 3)
  /\ (forall events w s' w',
         launch vector_store events initial_session w = (Normal s', w') ->
         1 <= num_results s' <= 10)
  /\ (forall s w,
         blank (query_input s) = false ->
         List.filter is_similarity_search (news w (submit vector_store s w).2)
         = [EvCall (similarity_search vector_store (query_input s) (num_results s))])
  /\ (forall s w q2 v,
         blank (query_input s) = false -> blank q2 = false ->
         slider_admits num_results_slider v = true ->
         List.filter is_similarity_search
           (news w (launch vector_store
                      [submit_button_click; type_query q2; move_slider v;
                       query_input_submit] s w).2)
         = [EvCall (similarity_search vector_store (query_input s) (num_results s));
            EvCall (similarity_search vector_store q2 v)]).
Proof.
  split; [repeat split|]. split; [|split].
  - intros events w s' w'. apply launch_num_results. simpl. lia.
  - intros s w Hb.
    destruct (submit_text_searches vector_store s w Hb) as (h' & w' & -> & Hf).
    exact Hf.
  - intros s w q2 v Hb Hb2 Hv.
    pose proof (submit_trace vector_store s w) as Ht1.
    destruct (submit_text_searches vector_store s w Hb) as (h1 & w1 & E1 & F1).
    rewrite E1 in Ht1. cbn [snd] in Ht1.
    rewrite (launch_cons vector_store submit_button_click _ s w _ _ E1).
    erewrite launch_cons by reflexivity.
    erewrite launch_cons by (simpl; rewrite Hv; reflexivity).
    set (s3 := {| query_input := q2; chatbot := h1; num_results := v |}).
    pose proof (submit_trace vector_store s3 w1) as Ht2.
    destruct (submit_text_searches vector_store s3 w1 Hb2) as (h2 & w2 & E2 & F2).
    rewrite E2 in Ht2. cbn [snd] in Ht2.
    rewrite (launch_cons vector_store query_input_submit _ s3 w1 _ _ E2).
    cbn [launch mret Py_ret snd].
    rewrite (news_trans _ _ _ _ _ Ht1 Ht2), List.filter_app, F1, F2.
    reflexivity.
Qed.

(** C9: in every branch, [search_documents] returns the history it was
    given, entry for entry, followed by exactly one new entry
    [[query, response]]. *)
Theorem search_documents_appends_one_pair
    (query : pystr) (chat_history : list ChatEntry) (k : Z) (w : World) :
  exists response w',
    search_documents vector_store query chat_history k w
    = (Normal (chat_history ++ [[Some query; Some response]]), w')
    /\ (response = please_enter /\ blank query = true
        \/ blank query = false
           /\ match search_reply vector_store query k w with
              | Returns [] => response = nothing_found
              | Returns results => response = format_results results
              | Raises e => response = error_prefix ++ str_exc e
              end).
Proof.
  destruct (blank query) eqn:Hb.
  - rewrite search_documents_blank by exact Hb. eauto 6.
  - rewrite search_documents_text by exact Hb.
    destruct (search_reply _ _ _ _) as [[|d ds]|e]; eauto 6.
Qed.

(** C10: [on_submit] always returns the empty string as its first output.
    On a blank message the conversation and the world are the ones it was
    given; otherwise the conversation is the one [search_documents]
    returns. *)
Theorem on_submit_clears_the_text_box
    (message : pystr) (chat_history : list ChatEntry) (k : Z) (w : World) :
  exists history w',
    on_submit vector_store message chat_history k w = (Normal ([], history), w')
    /\ (blank message = true -> history = chat_history /\ w' = w)
    /\ (blank message = false ->
        search_documents vector_store message chat_history k w
        = (Normal history, w')).
Proof.
  destruct (blank message) eqn:Hb.
  - rewrite on_submit_blank by exact Hb. eexists _, _.
    split; [reflexivity|]. split; [auto|discriminate].
  - rewrite on_submit_text by exact Hb.
    destruct (search_documents_returns vector_store message chat_history k w)
      as (r & w' & E).
    rewrite E. eexists _, _. split; [reflexivity|]. split; [discriminate|auto].
Qed.

End PageClaims.

(** ** What a script can and cannot do to the world *)

Section Confinement.
Context `{External}.
Variable P : Event -> bool.

Lemma confined_run {A} (m : Py A) w o w' :
  confined P m -> m w = (o, w') ->
  environ w' = environ w
  /\ exists t, trace w' = trace w ++ t /\ forallb P t = true.
Proof. intros Hm E. specialize (Hm w). rewrite E in Hm. exact Hm. Qed.

Lemma confined_ret {A} (a : A) : confined P (mret a).
Proof.
  intros w. split; [reflexivity|]. exists []. split; [|reflexivity].
  symmetry. apply app_nil_r.
Qed.

Lemma confined_raise {A} e : confined P (@raise _ A e).
Proof. exact (confined_ret tt). Qed.

Lemma confined_sys_exit {A} c : confined P (@sys_exit _ A c).
Proof. exact (confined_ret tt). Qed.

Lemma confined_environ_get k : confined P (environ_get k).
Proof. exact (confined_ret tt). Qed.

Lemma confined_missing_vars rv : confined P (missing_vars rv).
Proof. exact (confined_ret tt). Qed.

Lemma confined_environ_getitem k : confined P (environ_getitem k).
Proof.
  intros w. unfold environ_getitem.
  destruct (environ w !! k); exact (confined_ret tt w).
Qed.

Lemma confined_emit ev : P ev = true -> confined P (emit ev).
Proof.
  intros Hev w. split; [reflexivity|]. exists [ev].
  split; [reflexivity|]. simpl. rewrite Hev. reflexivity.
Qed.

Lemma confined_logging_info msg :
  P (EvLog INFO msg) = true -> confined P (logging_info msg).
Proof. apply confined_emit. Qed.

Lemma confined_logging_error msg :
  P (EvLog ERROR msg) = true -> confined P (logging_error msg).
Proof. apply confined_emit. Qed.

Lemma confined_call {A} (c : Call pyfloat A) :
  P (EvCall c) = true -> confined P (call c).
Proof.
  intros Hev w. unfold call.
  destruct (respond A c (environ w) (outside w)) as [[a|e] s];
    (split; [reflexivity|]); exists [EvCall c];
    (split; [reflexivity|]); simpl; rewrite Hev; reflexivity.
Qed.

Lemma confined_uuid4 : (forall u, P (EvUuid4 u) = true) -> confined P uuid4.
Proof.
  intros Hev w. unfold uuid4. destruct (random_uuid4 (outside w)) as [u s].
  split; [reflexivity|]. exists [EvUuid4 u].
  split; [reflexivity|]. simpl. rewrite Hev. reflexivity.
Qed.

Lemma confined_bind {A B} (m : Py A) (k : A -> Py B) :
  confined P m -> (forall a, confined P (k a)) -> confined P (m ≫= k).
Proof.
  intros Hm Hk w. rewrite bind_run.
  destruct (m w) as [[a|e|c] w1] eqn:E;
    destruct (confined_run m w _ w1 Hm E) as (He & t & Ht & Hp);
    try (split; [exact He|]; exists t; split; [exact Ht|exact Hp]).
  destruct (Hk a w1) as (He2 & t2 & Ht2 & Hp2).
  split; [congruence|]. exists (t ++ t2).
  rewrite Ht2, Ht, <- app_assoc, forallb_app, Hp, Hp2. split; reflexivity.
Qed.

Lemma confined_try {A} (body : Py A) (handler : PyException -> Py A) :
  confined P body -> (forall e, confined P (handler e)) ->
  confined P (try_except body handler).
Proof.
  intros Hm Hk w. unfold try_except.
  destruct (body w) as [[a|e|c] w1] eqn:E;
    destruct (confined_run body w _ w1 Hm E) as (He & t & Ht & Hp);
    try (split; [exact He|]; exists t; split; [exact Ht|exact Hp]).
  destruct (Hk e w1) as (He2 & t2 & Ht2 & Hp2).
  split; [congruence|]. exists (t ++ t2).
  rewrite Ht2, Ht, <- app_assoc, forallb_app, Hp, Hp2. split; reflexivity.
Qed.

Lemma confined_repeat_py {A} (m : Py A) n :
  confined P m -> confined P (repeat_py n m).
Proof.
  intros Hm. induction n as [|n IH]; simpl.
  - apply confined_ret.
  - apply confined_bind; [exact Hm|]. intros x.
    apply confined_bind; [exact IH|]. intros xs. apply confined_ret.
Qed.

End Confinement.

Section ScriptFacts.
Context `{External}.

Lemma confined_check_required P rv :
  (forall msg, P (EvLog ERROR msg) = true) -> confined P (check_required rv).
Proof.
  intros HP. unfold check_required.
  apply confined_bind; [apply confined_missing_vars|]. intros [|v vs].
  - apply confined_ret.
  - apply confined_bind; [apply confined_logging_error, HP|].
    intros _. apply confined_sys_exit.
Qed.

Lemma confined_make_embeddings P :
  (forall e, P (EvCall (new_AzureOpenAIEmbeddings e)) = true) ->
  confined P make_embeddings.
Proof.
  intros HP. unfold make_embeddings.
  repeat (apply confined_bind; [apply confined_environ_getitem|]; intros ?).
  apply confined_bind; [apply confined_call, HP|]. intros _. apply confined_ret.
Qed.

(** The validation gate: either every required key is set and nothing
    happens, or the missing keys are reported, exactly they and in the
    order of the list, and the script exits with status 1. *)
Lemma check_required_run rv w :
  check_required rv w
  = match List.filter (unset (environ w)) rv with
    | [] => (Normal tt, w)
    | missing =>
        (SysExit 1,
         {| environ := environ w; outside := outside w;
            trace := trace w
                     ++ [EvLog ERROR (py "Missing required environment variables: "
                                      ++ join (py ", ") missing)] |})
    end.
Proof.
  unfold check_required, missing_vars. rewrite bind_run.
  destruct (List.filter (unset (environ w)) rv); reflexivity.
Qed.

Lemma prompt_for_api_key_run w :
  prompt_for_api_key w
  = if unset (environ w) AZURE_OPENAI_API_KEY
    then match prompt_answer w with
         | Returns typed =>
             (Normal tt,
              {| environ := <[AZURE_OPENAI_API_KEY := typed]> (environ w);
                 outside := (tty_getpass (py "Enter API key for Azure: ")
                                         (outside w)).2;
                 trace := trace w ++ [EvPrompt (py "Enter API key for Azure: ")] |})
         | Raises e =>
             (Raised e,
              {| environ := environ w;
                 outside := (tty_getpass (py "Enter API key for Azure: ")
                                         (outside w)).2;
                 trace := trace w ++ [EvPrompt (py "Enter API key for Azure: ")] |})
         end
    else (Normal tt, w).
Proof.
  unfold prompt_for_api_key, prompt_answer.
  destruct (unset (environ w) AZURE_OPENAI_API_KEY); [|reflexivity].
  rewrite bind_run. unfold getpass.
  destruct (tty_getpass _ (outside w)) as [[typed|e] s]; reflexivity.
Qed.

End ScriptFacts.

(** Discharges a [confined] goal by following the structure of the code. *)
Ltac confine :=
  repeat first
    [ apply confined_bind; [|intros ?]
    | apply confined_try; [|intros ?]
    | apply confined_ret
    | apply confined_sys_exit
    | apply confined_raise
    | apply confined_environ_get
    | apply confined_environ_getitem
    | apply confined_missing_vars
    | apply confined_logging_info; reflexivity
    | apply confined_logging_error; reflexivity
    | apply confined_call; reflexivity
    | apply confined_uuid4; intros ?; reflexivity
    | apply confined_repeat_py
    | apply confined_make_embeddings; intros ?; reflexivity
    | apply confined_check_required; intros ?; reflexivity ].

Section StartupFacts.
Context `{External}.

Lemma filter_none {A} (Q : A -> bool) (t : list A) :
  forallb (fun x => negb (Q x)) t = true -> List.filter Q t = [].
Proof.
  induction t as [|x t IH]; simpl; [reflexivity|].
  destruct (Q x); simpl; [discriminate|exact IH].
Qed.

Lemma startswith_app_l p s t :
  startswith p s = true -> startswith p (s ++ t) = true.
Proof.
  revert s. induction p as [|a p IH]; intros [|b s]; simpl; try discriminate;
    try reflexivity.
  intros Hs. apply andb_prop in Hs as [-> Hs]. simpl. apply IH, Hs.
Qed.

Lemma contains_app_l needle pre post :
  contains needle pre = true -> contains needle (pre ++ post) = true.
Proof.
  induction pre as [|a pre IH]; simpl.
  - rewrite orb_false_r. destruct needle; [|discriminate]. intros _.
    destruct post; reflexivity.
  - intros Hc. apply orb_prop in Hc as [Hs|Hc].
    + pose proof (startswith_app_l needle (a :: pre) post Hs) as Hs'.
      simpl in Hs'. rewrite Hs'. reflexivity.
    + rewrite (IH Hc). apply orb_true_r.
Qed.

Lemma contains_join sep x (l : list pystr) :
  In x l -> contains x (join sep l) = true.
Proof.
  induction l as [|y l IH]; [intros []|].
  intros [->|Hin].
  - destruct l as [|z l]; simpl join.
    + rewrite <- (app_nil_r x) at 2. apply contains_prefix.
    + apply contains_prefix.
  - destruct l as [|z l]; [destruct Hin|].
    change (join sep (y :: z :: l)) with (y ++ sep ++ join sep (z :: l)).
    apply contains_app_r, contains_app_r, IH, Hin.
Qed.








(** The validation gate of the Seeder and of the UI: when a required key is
    missing the script logs the missing keys, does nothing else and exits
    with status 1. *)
Lemma seeder_gate w :
  List.filter (unset (environ w)) Seeder.required_vars <> [] ->
  Seeder.main w
  = (SysExit 1,
     {| environ := environ w; outside := outside w;
        trace := trace w
                 ++ [EvLog ERROR
                       (py "Missing required environment variables: "
                        ++ join (py ", ")
                             (List.filter (unset (environ w)) Seeder.required_vars))] |}).
Proof.
  intros Hm. unfold Seeder.main. rewrite bind_run, check_required_run.
  destruct (List.filter _ _); [congruence|reflexivity].
Qed.

Lemma chatbot_gate w events :
  List.filter (unset (environ w)) Chatbot.required_vars <> [] ->
  Chatbot.main events w
  = (SysExit 1,
     {| environ := environ w; outside := outside w;
        trace := trace w
                 ++ [EvLog ERROR
                       (py "Missing required environment variables: "
                        ++ join (py ", ")
                             (List.filter (unset (environ w)) Chatbot.required_vars))] |}).
Proof.
  intros Hm. unfold Chatbot.main, Chatbot.startup.
  rewrite !bind_run, check_required_run.
  destruct (List.filter _ _); [congruence|reflexivity].
Qed.


End StartupFacts.

(** ** Claims about start-up *)

Section StartupClaims.
Context `{External}.


End StartupClaims.

(** C2 at the Index Provisioner.  With the cluster URI missing and every
    other key set, the Seeder stops at its validation gate, but the
    Provisioner reports nothing, builds a client without a host, sends the
    index request over the network and ends with status 0.  With the
    endpoint and the deployment name both missing, it dies on the [KeyError]
    of the first one: the second key is never named and nothing is logged. *)
Theorem provisioner_skips_validation :
  let env1 := delete MONGODB_ATLAS_CLUSTER_URI Lab.full_env in
  let env2 := delete AZURE_OPENAI_ENDPOINT
                (delete AZURE_OPENAI_DEPLOYMENT_NAME Lab.full_env) in
  let run1 := @Provisioner.main Lab.world (Lab.boot env1 (Returns [])) in
  let run2 := @Provisioner.main Lab.world (Lab.boot env2 (Returns [])) in
  List.filter (unset env1) Chatbot.required_vars = [MONGODB_ATLAS_CLUSTER_URI]
  /\ (@Seeder.main Lab.world (Lab.boot env1 (Returns []))).1 = SysExit 1
  /\ run1.1 = Normal tt
  /\ exit_status run1.1 = 0
  /\ List.filter is_error_log (trace run1.2) = []
  /\ (exists emb,
         List.filter is_network (trace run1.2)
         = [EvCall (create_vector_search_index
                      (from_collection
                         {| coll_client := {| host := None |};
                            coll_db := DB_NAME; coll_name := COLLECTION_NAME |}
                         emb ATLAS_VECTOR_SEARCH_INDEX_NAME (py "cosine"))
                      1536)])
  /\ List.filter (unset env2) Chatbot.required_vars
     = [AZURE_OPENAI_ENDPOINT; AZURE_OPENAI_DEPLOYMENT_NAME]
  /\ run2.1 = Raised (KeyError AZURE_OPENAI_ENDPOINT)
  /\ trace run2.2 = [].
Proof.
  repeat split; try (vm_compute; reflexivity).
  eexists. vm_compute. reflexivity.
Qed.


(** C1 as stated fails: a blank submission is settled locally, but the
    conversation does not grow. *)
Lemma blank_submission_adds_no_entry :
  let s := {| Chatbot.query_input := py "   ";
              Chatbot.chatbot := Chatbot.get_welcome_message;
              Chatbot.num_results := 3 |} in
  blank (Chatbot.query_input s) = true
  /\ ~ @answered_locally Lab.world Lab.a_store s
         (Lab.boot Lab.full_env (Returns Seeder.documents)).
Proof.
  split; [vm_compute; reflexivity|].
  intros (s' & w' & entry & Hrun & _ & Hgrow).
  rewrite submit_blank in Hrun by (vm_compute; reflexivity).
  injection Hrun as <- _. simpl in Hgrow.
  apply (f_equal (@length _)) in Hgrow. simpl in Hgrow. discriminate Hgrow.
Qed.

(** ** The seeding run *)

Section SeederFacts.
Context `{External}.




Lemma groundwork_no_upsert_or_search t :
  forallb groundwork t = true -> forallb no_upsert_or_search t = true.
Proof.
  induction t as [|ev t IH]; simpl; [reflexivity|].
  intros Hg. apply andb_prop in Hg as [Hev Ht]. rewrite (IH Ht), andb_true_r.
  unfold groundwork in Hev. unfold no_upsert_or_search.
  destruct (is_add_documents ev || is_similarity_search ev);
    [discriminate Hev|reflexivity].
Qed.


Lemma logging_info_Normal msg w a w' :
  logging_info msg w = (Normal a, w') -> trace w' = trace w ++ [EvLog INFO msg].
Proof. unfold logging_info. rewrite emit_run. intros [= _ <-]. reflexivity. Qed.

(** The list comprehension that draws the identifiers: it always returns,
    with one identifier per turn, each one a draw of its own. *)
Lemma repeat_uuid4_run n : forall w,
  exists us w',
    repeat_py n uuid4 w = (Normal us, w')
    /\ length us = n /\ trace w' = trace w ++ map EvUuid4 us.
Proof.
  induction n as [|n IH]; intros w; simpl.
  - exists [], w. split; [reflexivity|]. split; [reflexivity|].
    symmetry. apply app_nil_r.
  - rewrite bind_run. unfold uuid4 at 1.
    destruct (random_uuid4 (outside w)) as [u s].
    set (w1 := {| environ := _; outside := _; trace := _ |}).
    destruct (IH w1) as (us & w' & E & Hlen & Ht).
    rewrite bind_run, E. exists (u :: us), w'.
    split; [reflexivity|]. split; [simpl; congruence|].
    rewrite Ht. unfold w1. cbn [trace]. rewrite <- app_assoc. reflexivity.
Qed.

Lemma prompt_for_api_key_trace w o w' :
  prompt_for_api_key w = (o, w') ->
  exists t, trace w' = trace w ++ t /\ forallb groundwork t = true.
Proof.
  rewrite prompt_for_api_key_run.
  destruct (unset (environ w) AZURE_OPENAI_API_KEY);
    [destruct (prompt_answer w)|]; intros [= _ <-].
  - eexists. split; reflexivity.
  - eexists. split; reflexivity.
  - exists []. split; [symmetry; apply app_nil_r|reflexivity].
Qed.


(** What a seeding step that returned has done, in order. *)
Lemma seed_Normal vector_store uuids w w' :
  Seeder.seed vector_store uuids w = (Normal tt, w') ->
  exists l1 l2 l3 l4,
    trace w' = trace w
               ++ [EvLog INFO l1;
                   EvCall (add_documents vector_store Seeder.documents uuids);
                   EvLog INFO l2; EvLog INFO l3;
                   EvCall (similarity_search vector_store Seeder.query 2);
                   EvLog INFO l4].
Proof.
  intros Hrun. unfold Seeder.seed in Hrun. apply try_exit_Normal in Hrun.
  apply bind_Normal in Hrun as (? & w1 & E1 & Hrun).
  apply bind_Normal in Hrun as (? & w2 & E2 & Hrun).
  apply bind_Normal in Hrun as (? & w3 & E3 & Hrun).
  apply bind_Normal in Hrun as (? & w4 & E4 & Hrun).
  apply bind_Normal in Hrun as (results & w5 & E5 & E6).
  apply logging_info_Normal in E1, E3, E4, E6.
  apply call_Normal in E2 as (E2 & _). apply call_Normal in E5 as (E5 & _).
  eexists _, _, _, _.
  rewrite E6, E5, E4, E3, E2, E1, <- !app_assoc. reflexivity.
Qed.

End SeederFacts.

Section SeederClaims.
Context `{External}.


End SeederClaims.

(** ** The claims on explicit runs

    Each statement below instantiates one of the theorems above in the
    laboratory world, where its hypotheses are checked by evaluation. *)

Lemma blank_submission_is_dropped_witness :
  let s := {| Chatbot.query_input := [32; 160; 12288; 9]%N;
              Chatbot.chatbot := Chatbot.get_welcome_message;
              Chatbot.num_results := 3 |} in
  let w := Lab.boot Lab.full_env (Returns Seeder.documents) in
  blank (Chatbot.query_input s) = true
  /\ @Chatbot.submit Lab.world Lab.a_store s w
     = (Normal {| Chatbot.query_input := [];
                  Chatbot.chatbot := Chatbot.get_welcome_message;
                  Chatbot.num_results := 3 |}, w)
  /\ List.filter is_network (news w w) = []
  /\ @Chatbot.search_documents Lab.world Lab.a_store
       (Chatbot.query_input s) (Chatbot.chatbot s) (Chatbot.num_results s) w
     = (Normal (Chatbot.get_welcome_message
                ++ [[Some (Chatbot.query_input s); Some Chatbot.please_enter]]), w).
Proof.
  intros s w. split; [vm_compute; reflexivity|].
  apply (@blank_submission_is_dropped Lab.world Lab.a_store s w).
  vm_compute; reflexivity.
Defined.

Lemma search_failure_is_shown_witness :
  let s := {| Chatbot.query_input := py "Will it be hot tomorrow?";
              Chatbot.chatbot := Chatbot.get_welcome_message;
              Chatbot.num_results := 3 |} in
  let w := Lab.boot Lab.full_env (Raises Lab.timeout) in
  blank (Chatbot.query_input s) = false
  /\ @search_reply Lab.world Lab.a_store (Chatbot.query_input s) 3 w
     = Raises Lab.timeout
  /\ (exists w',
         @Chatbot.submit Lab.world Lab.a_store s w
         = (Normal {| Chatbot.query_input := [];
                      Chatbot.chatbot :=
                        Chatbot.chatbot s
                        ++ [[Some (Chatbot.query_input s);
                             Some (Chatbot.error_prefix ++ @str_exc Lab.world Lab.timeout)]];
                      Chatbot.num_results := 3 |}, w'))
  /\ contains (@str_exc Lab.world Lab.timeout)
              (Chatbot.error_prefix ++ @str_exc Lab.world Lab.timeout) = true
  /\ (forall events s0 w0,
         exists s' w',
           @Chatbot.launch Lab.world Lab.a_store events s0 w0 = (Normal s', w')).
Proof.
  intros s w. split; [vm_compute; reflexivity|].
  split; [vm_compute; reflexivity|].
  apply (@search_failure_is_shown Lab.world Lab.a_store s w Lab.timeout);
    vm_compute; reflexivity.
Defined.

Lemma empty_result_is_not_an_error_witness :
  let s := {| Chatbot.query_input := py "Stealing from the bank is a crime";
              Chatbot.chatbot := Chatbot.get_welcome_message;
              Chatbot.num_results := 3 |} in
  let w := Lab.boot Lab.full_env (Returns []) in
  blank (Chatbot.query_input s) = false
  /\ @search_reply Lab.world Lab.a_store (Chatbot.query_input s) 3 w = Returns []
  /\ @Chatbot.submit Lab.world Lab.a_store s w
     = (Normal {| Chatbot.query_input := [];
                  Chatbot.chatbot :=
                    Chatbot.chatbot s
                    ++ [[Some (Chatbot.query_input s); Some Chatbot.nothing_found]];
                  Chatbot.num_results := 3 |},
        @searched Lab.world Lab.a_store (Chatbot.query_input s) 3 w)
  /\ List.filter is_error_log
       (news w (@searched Lab.world Lab.a_store (Chatbot.query_input s) 3 w)) = [].
Proof.
  intros s w. split; [vm_compute; reflexivity|].
  split; [vm_compute; reflexivity|].
  apply (@empty_result_is_not_an_error Lab.world Lab.a_store s w);
    vm_compute; reflexivity.
Defined.

Lemma num_results_is_bounded_and_read_at_submission_witness :
  let s := {| Chatbot.query_input := py "Will it be hot tomorrow?";
              Chatbot.chatbot := Chatbot.get_welcome_message;
              Chatbot.num_results := 3 |} in
  let w := Lab.boot Lab.full_env (Returns Seeder.documents) in
  let q2 := py "Stealing from the bank is a crime" in
  blank (Chatbot.query_input s) = false /\ blank q2 = false
  /\ Chatbot.slider_admits Chatbot.num_results_slider 7 = true
  /\ List.filter is_similarity_search
       (news w (@Chatbot.launch Lab.world Lab.a_store
                  [Chatbot.submit_button_click; Chatbot.type_query q2;
                   Chatbot.move_slider 7; Chatbot.query_input_submit] s w).2)
     = [EvCall (similarity_search Lab.a_store (Chatbot.query_input s) 3);
        EvCall (similarity_search Lab.a_store q2 7)].
Proof.
  intros s w q2. split; [vm_compute; reflexivity|].
  split; [vm_compute; reflexivity|]. split; [vm_compute; reflexivity|].
  apply (proj2 (proj2 (proj2
           (@num_results_is_bounded_and_read_at_submission Lab.world Lab.a_store))));
    vm_compute; reflexivity.
Defined.


(** The laboratory's random source counts, so it never repeats itself. *)
Transparent py.
Opaque py.






Lemma on_submit_clears_the_text_box_witness :
  let w := Lab.boot Lab.full_env (Returns Seeder.documents) in
  exists history w',
    @Chatbot.on_submit Lab.world Lab.a_store (py " ")
      Chatbot.get_welcome_message 3 w = (Normal ([], history), w')
    /\ (blank (py " ") = true
        -> history = Chatbot.get_welcome_message /\ w' = w)
    /\ (blank (py " ") = false
        -> @Chatbot.search_documents Lab.world Lab.a_store (py " ")
             Chatbot.get_welcome_message 3 w = (Normal history, w')).
Proof.
  intros w.
  exact (@on_submit_clears_the_text_box Lab.world Lab.a_store (py " ")
           Chatbot.get_welcome_message 3 w).
Defined.

(** * Further properties of the scripts *)

(** ** The error discipline *)

Section Discipline.
Context `{External}.

Lemma ends_in_error_app t1 t2 :
  List.filter is_error_log t1 = [] -> ends_in_error t2 -> ends_in_error (t1 ++ t2).
Proof.
  intros H1 (pre & msg & -> & Hpre). exists (t1 ++ pre), msg.
  rewrite List.filter_app, H1, Hpre, <- app_assoc. split; reflexivity.
Qed.

Lemma disciplined_silent {A} (m : Py A) :
  confined (fun ev => negb (is_error_log ev)) m ->
  (forall w c, (m w).1 <> SysExit c) ->
  disciplined m.
Proof.
  intros Hm Hexit w. destruct (Hm w) as (_ & t & Ht & Hp).
  exists t. split; [exact Ht|].
  pose proof (filter_none is_error_log t Hp) as Hf.
  specialize (Hexit w). destruct ((m w).1); [exact Hf|exact Hf|].
  destruct (Hexit code eq_refl).
Qed.

Lemma disciplined_ret {A} (a : A) : disciplined (mret a).
Proof. apply disciplined_silent; [apply confined_ret|discriminate]. Qed.

Lemma disciplined_environ_get k : disciplined (environ_get k).
Proof. apply disciplined_silent; [apply confined_environ_get|discriminate]. Qed.

Lemma disciplined_environ_getitem k : disciplined (environ_getitem k).
Proof.
  apply disciplined_silent; [apply confined_environ_getitem|].
  intros w c. unfold environ_getitem. destruct (environ w !! k); discriminate.
Qed.

Lemma disciplined_logging_info msg : disciplined (logging_info msg).
Proof.
  apply disciplined_silent; [apply confined_logging_info; reflexivity|discriminate].
Qed.

Lemma disciplined_call {A} (c : Call pyfloat A) : disciplined (call c).
Proof.
  apply disciplined_silent; [apply confined_call; reflexivity|].
  intros w code. unfold call.
  destruct (respond A c (environ w) (outside w)) as [[a|e] s]; discriminate.
Qed.

Lemma disciplined_bind {A B} (m : Py A) (k : A -> Py B) :
  disciplined m -> (forall a, disciplined (k a)) -> disciplined (m ≫= k).
Proof.
  intros Hm Hk w. rewrite bind_run.
  destruct (Hm w) as (t1 & T1 & D1).
  destruct (m w) as [[a|e|c] w1]; cbn [fst snd] in *;
    try (exists t1; split; [exact T1|exact D1]).
  destruct (Hk a w1) as (t2 & T2 & D2). exists (t1 ++ t2).
  split; [rewrite T2, T1, app_assoc; reflexivity|].
  destruct ((k a w1).1).
  - rewrite List.filter_app, D1, D2. reflexivity.
  - rewrite List.filter_app, D1, D2. reflexivity.
  - destruct D2 as [-> D2]. split; [reflexivity|].
    apply ends_in_error_app; assumption.
Qed.

(** [try: body  except Exception as e: logging.error(...); sys.exit(1)] *)
Lemma guarded_try_exit {A} (body : Py A) (msg : PyException -> pystr) :
  disciplined body ->
  guarded (try_except body (fun e => logging_error (msg e);; sys_exit 1)).
Proof.
  intros Hb. split.
  - intros w. unfold try_except.
    destruct (Hb w) as (t & T & D).
    destruct (body w) as [[a|e|c] w1]; cbn [fst snd] in *;
      try (exists t; split; [exact T|exact D]).
    exists (t ++ [EvLog ERROR (msg e)]).
    rewrite bind_run. unfold logging_error. rewrite emit_run.
    unfold sys_exit. cbn [fst snd trace]. split.
    + rewrite T, app_assoc. reflexivity.
    + split; [reflexivity|]. exists t, (msg e). split; [reflexivity|exact D].
  - intros w e. unfold try_except.
    destruct (body w) as [[a|e'|c] w1]; cbn; discriminate.
Qed.

Lemma guarded_disciplined {A} (m : Py A) : guarded m -> disciplined m.
Proof. intros [Hd _]. exact Hd. Qed.

Lemma guarded_bind {A B} (m : Py A) (k : A -> Py B) :
  guarded m -> (forall a, guarded (k a)) -> guarded (m ≫= k).
Proof.
  intros [Hm Nm] Hk. split.
  - apply disciplined_bind; [exact Hm|]. intros a. apply Hk.
  - intros w e. rewrite bind_run. specialize (Nm w).
    destruct (m w) as [[a|e'|c] w1]; cbn [fst] in *.
    + apply Hk.
    + destruct (Nm e' eq_refl).
    + discriminate.
Qed.

Lemma guarded_total {A} (m : Py A) :
  disciplined m -> (forall w, exists a, (m w).1 = Normal a) -> guarded m.
Proof.
  intros Hd Hn. split; [exact Hd|]. intros w e.
  destruct (Hn w) as [a ->]. discriminate.
Qed.

Lemma guarded_ret {A} (a : A) : guarded (mret a).
Proof. apply guarded_total; [apply disciplined_ret|]. intros w. exists a. reflexivity. Qed.

Lemma guarded_logging_info msg : guarded (logging_info msg).
Proof.
  apply guarded_total; [apply disciplined_logging_info|].
  intros w. exists tt. reflexivity.
Qed.

Lemma guarded_environ_get k : guarded (environ_get k).
Proof.
  apply guarded_total; [apply disciplined_environ_get|].
  intros w. eexists. reflexivity.
Qed.

Lemma guarded_check_required rv : guarded (check_required rv).
Proof.
  split.
  - intros w. rewrite check_required_run.
    destruct (List.filter (unset (environ w)) rv); cbn.
    + exists []. split; [symmetry; apply app_nil_r|reflexivity].
    + eexists. split; [reflexivity|]. split; [reflexivity|].
      eexists [], _. split; reflexivity.
  - intros w e. rewrite check_required_run.
    destruct (List.filter (unset (environ w)) rv); discriminate.
Qed.

Lemma guarded_repeat_uuid4 n : guarded (repeat_py n uuid4).
Proof.
  apply guarded_total.
  - apply disciplined_silent.
    + apply confined_repeat_py, confined_uuid4. reflexivity.
    + intros w c. destruct (repeat_uuid4_run n w) as (us & w' & -> & _).
      discriminate.
  - intros w. destruct (repeat_uuid4_run n w) as (us & w' & -> & _).
    exists us. reflexivity.
Qed.

Lemma disciplined_make_embeddings : disciplined make_embeddings.
Proof.
  unfold make_embeddings.
  repeat (apply disciplined_bind; [apply disciplined_environ_getitem|]; intros ?).
  apply disciplined_bind; [apply disciplined_call|]. intros _.
  apply disciplined_ret.
Qed.

End Discipline.

(** Discharges a [disciplined] or [guarded] goal along the code. *)
Ltac discipline :=
  repeat lazymatch goal with
    | |- guarded (check_required _) => apply guarded_check_required
    | |- guarded (repeat_py _ uuid4) => apply guarded_repeat_uuid4
    | |- guarded (environ_get _) => apply guarded_environ_get
    | |- guarded (logging_info _) => apply guarded_logging_info
    | |- guarded (mret _) => apply guarded_ret
    | |- guarded (try_except _ _) => apply guarded_try_exit
    | |- guarded (_ ≫= _) => apply guarded_bind; [|intros ?]
    | |- disciplined make_embeddings => apply disciplined_make_embeddings
    | |- disciplined (logging_info _) => apply disciplined_logging_info
    | |- disciplined (call _) => apply disciplined_call
    | |- disciplined (environ_getitem _) => apply disciplined_environ_getitem
    | |- disciplined (environ_get _) => apply disciplined_environ_get
    | |- disciplined (mret _) => apply disciplined_ret
    | |- disciplined (try_except _ _) =>
        apply guarded_disciplined, guarded_try_exit
    | |- disciplined (_ ≫= _) => apply disciplined_bind; [|intros ?]
    end.

Section ScriptDiscipline.
Context `{External}.


Lemma guarded_chatbot_startup : guarded Chatbot.startup.
Proof.
  unfold Chatbot.startup, Chatbot.init_embeddings, Chatbot.connect,
    Chatbot.init_vector_store.
  discipline.
Qed.

(** What [guarded] says of one run. *)
Lemma guarded_run {A} (m : Py A) w :
  guarded m ->
  (exists a, (m w).1 = Normal a /\ List.filter is_error_log (news w (m w).2) = [])
  \/ ((m w).1 = SysExit 1 /\ ends_in_error (news w (m w).2)).
Proof.
  intros [Hd Hn]. destruct (Hd w) as (t & T & D). specialize (Hn w).
  rewrite (news_app _ _ _ T).
  destruct ((m w).1) as [a|e|c].
  - left. exists a. split; [reflexivity|exact D].
  - destruct (Hn e eq_refl).
  - right. destruct D as [-> D]. split; [reflexivity|exact D].
Qed.

End ScriptDiscipline.

(** ** The page as a client of the collection *)

Section PageConfinement.
Context `{External}.
Variable vector_store : MongoDBAtlasVectorSearch.
Variable P : Event -> bool.
Hypothesis P_log : forall level msg, P (EvLog level msg) = true.
Hypothesis P_search :
  forall q k, P (EvCall (similarity_search vector_store q k)) = true.

Import Chatbot.

Lemma confined_search_documents q h k :
  confined P (search_documents vector_store q h k).
Proof.
  unfold search_documents. apply confined_try.
  - destruct (negb (truthy (strip q))); [apply confined_ret|].
    apply confined_bind; [apply confined_logging_info, P_log|]. intros _.
    apply confined_bind; [apply confined_call, P_search|].
    intros [|d ds]; apply confined_ret.
  - intros e. apply confined_bind; [apply confined_logging_error, P_log|].
    intros _. apply confined_ret.
Qed.

Lemma confined_submit s : confined P (submit vector_store s).
Proof.
  unfold submit, on_submit. apply confined_bind.
  - destruct (bool_decide _); [apply confined_ret|].
    apply confined_bind; [apply confined_search_documents|].
    intros ?. apply confined_ret.
  - intros [text history]. apply confined_ret.
Qed.

Lemma confined_dispatch ev s : confined P (dispatch vector_store ev s).
Proof.
  destruct ev; simpl; try apply confined_ret; apply confined_submit.
Qed.

Lemma confined_launch events : forall s,
  confined P (launch vector_store events s).
Proof.
  induction events as [|ev events IH]; intros s; simpl.
  - apply confined_ret.
  - apply confined_bind; [|exact IH].
    apply confined_try; [apply confined_dispatch|].
    intros _. apply confined_ret.
Qed.

End PageConfinement.

Section PageSoundness.
Context `{External}.
Variable vector_store : MongoDBAtlasVectorSearch.

Import Chatbot.

Lemma submit_sound s w :
  1 <= num_results s <= 10 ->
  forallb sound_search (news w (submit vector_store s w).2) = true.
Proof.
  intros Hk. destruct (blank (query_input s)) eqn:Hb.
  - rewrite submit_blank by exact Hb. cbn [snd]. rewrite news_refl. reflexivity.
  - assert (Hs : sound_search
                   (EvCall (similarity_search vector_store (query_input s)
                                              (num_results s))) = true).
    { simpl. rewrite Hb. simpl.
      apply andb_true_intro. split; [apply Z.leb_le|apply Z.leb_le]; lia. }
    rewrite submit_text, search_documents_text by exact Hb.
    destruct (search_reply _ _ _ _) as [[|d ds]|e]; cbn [snd].
    1,2: erewrite news_app by (unfold searched; cbn [trace]; reflexivity);
         cbn [forallb]; rewrite Hs; reflexivity.
    erewrite news_app
      by (unfold searched; cbn [trace]; rewrite <- app_assoc; reflexivity).
    cbn [forallb app]. rewrite Hs. reflexivity.
Qed.

Lemma dispatch_trace ev s w :
  trace (dispatch vector_store ev s w).2
  = trace w ++ news w (dispatch vector_store ev s w).2.
Proof.
  destruct ev; simpl; try apply submit_trace;
    rewrite news_refl; symmetry; apply app_nil_r.
Qed.

Lemma dispatch_sound ev s w :
  1 <= num_results s <= 10 ->
  forallb sound_search (news w (dispatch vector_store ev s w).2) = true.
Proof.
  intros Hk. destruct ev; simpl; try (apply submit_sound, Hk);
    rewrite news_refl; reflexivity.
Qed.

Lemma launch_sound events : forall s w,
  1 <= num_results s <= 10 ->
  exists t, trace (launch vector_store events s w).2 = trace w ++ t
            /\ forallb sound_search t = true.
Proof.
  induction events as [|ev events IH]; intros s w Hk; simpl.
  - exists []. split; [symmetry; apply app_nil_r|reflexivity].
  - rewrite bind_run. unfold try_except.
    pose proof (dispatch_trace ev s w) as T1.
    pose proof (dispatch_sound ev s w Hk) as S1.
    destruct (dispatch_returns vector_store ev s w) as (s1 & w1 & Hd).
    rewrite Hd in T1, S1 |- *. cbn [snd] in T1, S1.
    destruct (IH s1 w1 (dispatch_num_results _ _ _ _ _ _ Hk Hd)) as (t2 & T2 & S2).
    exists (news w w1 ++ t2). split.
    + rewrite T2, T1 at 1. rewrite <- app_assoc. reflexivity.
    + rewrite forallb_app, S1, S2. reflexivity.
Qed.

End PageSoundness.

(** ** Further statements: start-up and the life of the page *)

Section MoreStartup.
Context `{External}.

Lemma unset_of_lookup env k :
  env !! k = None \/ env !! k = Some [] -> unset env k = true.
Proof. unfold unset. intros [-> | ->]; reflexivity. Qed.

Lemma confined_chatbot_startup P :
  (forall level msg, P (EvLog level msg) = true) ->
  (forall e, P (EvCall (new_AzureOpenAIEmbeddings e)) = true) ->
  (forall c, P (EvCall (new_MongoClient c)) = true) ->
  (forall c cmd, P (EvCall (admin_command c cmd)) = true) ->
  (forall v, P (EvCall (new_MongoDBAtlasVectorSearch v)) = true) ->
  confined P Chatbot.startup.
Proof.
  intros Plog Pemb Pcli Pcmd Pvs.
  unfold Chatbot.startup, Chatbot.init_embeddings, Chatbot.connect,
    Chatbot.init_vector_store.
  repeat lazymatch goal with
    | |- confined _ (check_required _) =>
        apply confined_check_required; intros ?; apply Plog
    | |- confined _ make_embeddings => apply confined_make_embeddings, Pemb
    | |- confined _ (try_except _ _) => apply confined_try; [|intros ?]
    | |- confined _ (_ ≫= _) => apply confined_bind; [|intros ?]
    | |- confined _ (mret _) => apply confined_ret
    | |- confined _ (sys_exit _) => apply confined_sys_exit
    | |- confined _ (environ_getitem _) => apply confined_environ_getitem
    | |- confined _ (logging_info _) => apply confined_logging_info, Plog
    | |- confined _ (logging_error _) => apply confined_logging_error, Plog
    | |- confined _ (call (new_MongoClient _)) => apply confined_call, Pcli
    | |- confined _ (call (admin_command _ _)) => apply confined_call, Pcmd
    | |- confined _ (call (new_MongoDBAtlasVectorSearch _)) =>
        apply confined_call, Pvs
    end.
Qed.

Lemma confined_chatbot_main P events :
  (forall level msg, P (EvLog level msg) = true) ->
  (forall e, P (EvCall (new_AzureOpenAIEmbeddings e)) = true) ->
  (forall c, P (EvCall (new_MongoClient c)) = true) ->
  (forall c cmd, P (EvCall (admin_command c cmd)) = true) ->
  (forall v, P (EvCall (new_MongoDBAtlasVectorSearch v)) = true) ->
  (forall vs, confined P (Chatbot.launch vs events Chatbot.initial_session)) ->
  confined P (Chatbot.main events).
Proof.
  intros Plog Pemb Pcli Pcmd Pvs Plaunch. unfold Chatbot.main.
  apply confined_bind; [apply confined_chatbot_startup; assumption|].
  intros vs. apply confined_bind; [apply confined_logging_info, Plog|].
  intros _. apply confined_bind; [apply Plaunch|]. intros s.
  apply confined_bind; [apply confined_logging_info, Plog|].
  intros _. apply confined_ret.
Qed.

Lemma confined_launch_sound vs events s :
  1 <= Chatbot.num_results s <= 10 ->
  confined sound_search (Chatbot.launch vs events s).
Proof.
  intros Hk w. split.
  - apply (confined_launch vs (fun _ => true)); reflexivity.
  - apply launch_sound, Hk.
Qed.

(** X1: when one of the Seeder's four required keys is absent or holds the
    empty string, the Seeder logs one error line that lists the missing
    keys (exactly the required keys that are absent or empty, in the order
    of [required_vars], joined by ", "), does nothing else (no prompt, no
    call) and exits with status 1. *)
Theorem seeder_stops_at_missing_keys (w : World) (k : pystr) :
  In k Seeder.required_vars ->
  environ w !! k = None \/ environ w !! k = Some [] ->
  let missing := List.filter (unset (environ w)) Seeder.required_vars in
  let report := py "Missing required environment variables: "
                ++ join (py ", ") missing in
  Seeder.main w
  = (SysExit 1,
     {| environ := environ w; outside := outside w;
        trace := trace w ++ [EvLog ERROR report] |})
  /\ In k missing
  /\ (forall k', In k' missing
                 <-> In k' Seeder.required_vars /\ unset (environ w) k' = true)
  /\ contains k report = true.
Proof.
  intros Hin Hk missing report.
  assert (Hm : In k missing)
    by (apply filter_In; split; [exact Hin|apply unset_of_lookup, Hk]).
  split; [|split; [exact Hm|split]].
  - apply seeder_gate. fold missing. intros E. rewrite E in Hm. destruct Hm.
  - intros k'. apply filter_In.
  - apply contains_app_r, contains_join, Hm.
Qed.

(** X2: the same gate in the UI, over its five required keys (the API key
    included): with one of them absent or empty the process logs the one
    report and exits with status 1 before any client is built, whatever the
    user would have done on the page. *)
Theorem chatbot_stops_at_missing_keys
    (w : World) (k : pystr) (events : list Chatbot.UIEvent) :
  In k Chatbot.required_vars ->
  environ w !! k = None \/ environ w !! k = Some [] ->
  let missing := List.filter (unset (environ w)) Chatbot.required_vars in
  let report := py "Missing required environment variables: "
                ++ join (py ", ") missing in
  Chatbot.main events w
  = (SysExit 1,
     {| environ := environ w; outside := outside w;
        trace := trace w ++ [EvLog ERROR report] |})
  /\ In k missing
  /\ (forall k', In k' missing
                 <-> In k' Chatbot.required_vars /\ unset (environ w) k' = true)
  /\ contains k report = true.
Proof.
  intros Hin Hk missing report.
  assert (Hm : In k missing)
    by (apply filter_In; split; [exact Hin|apply unset_of_lookup, Hk]).
  split; [|split; [exact Hm|split]].
  - apply chatbot_gate. fold missing. intros E. rewrite E in Hm. destruct Hm.
  - intros k'. apply filter_In.
  - apply contains_app_r, contains_join, Hm.
Qed.


(** X4: the UI process can only exit during start-up.  Either start-up
    fails, and then the process exits with status 1 right after its one
    error line without having searched; or the page is served and the
    process returns normally however many searches fail. *)
Theorem chatbot_exits_only_at_startup
    (events : list Chatbot.UIEvent) (w : World) :
  (exists s, (Chatbot.main events w).1 = Normal s)
  \/ ((Chatbot.main events w).1 = SysExit 1
      /\ (exists pre msg,
             news w (Chatbot.main events w).2 = pre ++ [EvLog ERROR msg]
             /\ List.filter is_error_log pre = [])
      /\ List.filter is_similarity_search (news w (Chatbot.main events w).2) = []).
Proof.
  pose proof (guarded_run Chatbot.startup w guarded_chatbot_startup) as G.
  assert (C : confined (fun ev => negb (is_similarity_search ev)) Chatbot.startup)
    by (apply confined_chatbot_startup; reflexivity).
  destruct (C w) as (_ & t & T & Hp).
  unfold Chatbot.main. rewrite bind_run.
  destruct (Chatbot.startup w) as [[vs|e|c] w1]; cbn [fst snd] in *.
  - left. rewrite !bind_run. unfold logging_info. rewrite emit_run.
    set (w2 := {| environ := _; outside := _; trace := _ |}).
    rewrite bind_run.
    destruct (launch_returns vs events Chatbot.initial_session w2)
      as (s' & w' & ->).
    rewrite bind_run, emit_run. eexists. reflexivity.
  - destruct G as [(a & Ha & _)|[Hx _]]; discriminate.
  - right. destruct G as [(a & Ha & _)|[Hx He]]; [discriminate|].
    injection Hx as ->.
    split; [reflexivity|]. split; [exact He|].
    rewrite (news_app _ _ _ T). apply filter_none, Hp.
Qed.

(** X5: the UI is a read-only client.  In every run, whatever the user
    does and whatever the collaborators answer, it never upserts documents,
    never requests an index, never prompts and never draws an identifier,
    and it leaves the process environment as it found it. *)
Theorem chatbot_only_reads (events : list Chatbot.UIEvent) (w : World) :
  environ (Chatbot.main events w).2 = environ w
  /\ forallb read_only (news w (Chatbot.main events w).2) = true.
Proof.
  assert (C : confined read_only (Chatbot.main events)).
  { apply confined_chatbot_main; try reflexivity.
    intros vs. apply confined_launch; reflexivity. }
  destruct (C w) as (He & t & T & Hp). split; [exact He|].
  rewrite (news_app _ _ _ T). exact Hp.
Qed.

(** X6: every similarity search the UI sends, in any run, has a query that
    is not blank and a number of results between 1 and 10. *)
Theorem chatbot_searches_are_sound (events : list Chatbot.UIEvent) (w : World) :
  forallb sound_search (news w (Chatbot.main events w).2) = true.
Proof.
  assert (C : confined sound_search (Chatbot.main events)).
  { apply confined_chatbot_main; try reflexivity.
    intros vs. apply confined_launch_sound. simpl. lia. }
  destruct (C w) as (_ & t & T & Hp).
  rewrite (news_app _ _ _ T). exact Hp.
Qed.

End MoreStartup.

(** ** Further statements: the text of the answers *)

Section AnswerFacts.

Import Chatbot.

Lemma add_document_block response item :
  add_document response item = response ++ document_block item.
Proof.
  destruct item as [i doc]. unfold add_document, document_block. cbn [fst snd].
  rewrite <- !app_assoc. reflexivity.
Qed.

Lemma fold_add_document items : forall response,
  fold_left add_document items response
  = response ++ concat (map document_block items).
Proof.
  induction items as [|item items IH]; intros response; simpl.
  - symmetry. apply app_nil_r.
  - rewrite IH, add_document_block, <- app_assoc. reflexivity.
Qed.

Lemma enumerate_fst {A} (l : list A) : forall start,
  map fst (enumerate start l) = seq start (length l).
Proof.
  induction l as [|x l IH]; intros start; simpl; [reflexivity|].
  rewrite IH. reflexivity.
Qed.

Lemma enumerate_snd {A} (l : list A) : forall start,
  map snd (enumerate start l) = l.
Proof.
  induction l as [|x l IH]; intros start; simpl; [reflexivity|].
  rewrite IH. reflexivity.
Qed.

Lemma enumerate_In {A} (x : A) (l : list A) : forall start,
  In x l -> exists i, In (i, x) (enumerate start l).
Proof.
  induction l as [|y l IH]; intros start; [intros []|].
  intros [->|Hin].
  - exists start. left. reflexivity.
  - destruct (IH (S start) Hin) as [i Hi]. exists i. right. exact Hi.
Qed.

Lemma contains_refl (x : pystr) : contains x x = true.
Proof. rewrite <- (app_nil_r x) at 2. apply contains_prefix. Qed.

Lemma contains_concat needle (x : pystr) (l : list pystr) :
  In x l -> contains needle x = true -> contains needle (concat l) = true.
Proof.
  induction l as [|y l IH]; [intros []|].
  intros [->|Hin] Hc; simpl.
  - apply contains_app_l, Hc.
  - apply contains_app_r, IH; assumption.
Qed.

Lemma contains_in_format_results needle results doc :
  In doc results ->
  (forall i, contains needle (document_block (i, doc)) = true) ->
  contains needle (format_results results) = true.
Proof.
  intros Hin Hblock. unfold format_results. rewrite fold_add_document.
  destruct (enumerate_In doc results 1 Hin) as [i Hi].
  apply contains_app_r. apply (contains_concat _ (document_block (i, doc))).
  - apply in_map_iff. exists (i, doc). split; [reflexivity|exact Hi].
  - apply Hblock.
Qed.

(** X7: the text of a successful answer is the header followed by one
    block per returned document, in the order of the service, the blocks
    numbered 1, 2, 3, ... ; nothing is dropped, reordered or re-ranked. *)
Theorem format_results_lists_documents_in_order (results : list Document) :
  format_results results
  = (py "Here's what I found:" ++ nl ++ nl)
    ++ concat (map document_block (enumerate 1 results))
  /\ map fst (enumerate 1 results) = seq 1 (length results)
  /\ map snd (enumerate 1 results) = results.
Proof.
  split; [apply fold_add_document|].
  split; [apply enumerate_fst|apply enumerate_snd].
Qed.

(** X8: a returned document whose metadata has no [source] key is shown
    with the source "Unknown"; one that has the key is shown with its
    value. *)
Theorem source_defaults_to_unknown (results : list Document) (doc : Document) :
  In doc results ->
  (metadata doc !! py "source" = None ->
   contains (py "**Content:** " ++ page_content doc ++ nl
             ++ py "**Source:** " ++ py "Unknown" ++ nl ++ nl)
            (format_results results) = true)
  /\ (forall source,
         metadata doc !! py "source" = Some source ->
         contains (py "**Content:** " ++ page_content doc ++ nl
                   ++ py "**Source:** " ++ source ++ nl ++ nl)
                  (format_results results) = true).
Proof.
  intros Hin.
  assert (Hgen : forall source,
             default (py "Unknown") (metadata doc !! py "source") = source ->
             contains (py "**Content:** " ++ page_content doc ++ nl
                       ++ py "**Source:** " ++ source ++ nl ++ nl)
                      (format_results results) = true).
  { intros source Hs. apply (contains_in_format_results _ _ doc Hin).
    intros i. unfold document_block. cbn [fst snd]. rewrite Hs.
    apply contains_app_r. rewrite <- !app_assoc. apply contains_refl. }
  split.
  - intros Hnone. apply Hgen. rewrite Hnone. reflexivity.
  - intros source Hsome. apply Hgen. rewrite Hsome. reflexivity.
Qed.

End AnswerFacts.

(** ** Further statements: the conversation *)

Section ConversationFacts.
Context `{External}.
Variable vector_store : MongoDBAtlasVectorSearch.

Import Chatbot.

Lemma head_of_please_enter : hd 0%N please_enter = 80%N.
Proof. vm_compute. reflexivity. Qed.

Lemma answer_is_not_the_instruction q k w :
  match search_reply vector_store q k w with
  | Returns [] => nothing_found
  | Returns results => format_results results
  | Raises e => error_prefix ++ str_exc e
  end <> please_enter.
Proof.
  intros E. apply (f_equal (hd 0%N)) in E. rewrite head_of_please_enter in E.
  destruct (search_reply vector_store q k w) as [[|d ds]|e].
  - vm_compute in E. discriminate E.
  - unfold format_results in E. rewrite fold_add_document in E.
    vm_compute in E. discriminate E.
  - vm_compute in E. discriminate E.
Qed.

(** What a submission does to the conversation. *)
Lemma submit_conversation s w :
  exists w',
    (blank (query_input s) = true
     /\ submit vector_store s w
        = (Normal {| query_input := []; chatbot := chatbot s;
                     num_results := num_results s |}, w'))
    \/ (blank (query_input s) = false
        /\ exists response,
             submit vector_store s w
             = (Normal {| query_input := [];
                          chatbot := chatbot s
                                     ++ [[Some (query_input s); Some response]];
                          num_results := num_results s |}, w')
             /\ response <> please_enter).
Proof.
  destruct (blank (query_input s)) eqn:Hb.
  - exists w. left. split; [reflexivity|apply submit_blank, Hb].
  - pose proof (answer_is_not_the_instruction (query_input s) (num_results s) w)
      as Hne.
    rewrite submit_text, search_documents_text by exact Hb.
    destruct (search_reply _ _ _ _) as [[|d ds]|e];
      eexists; right; (split; [reflexivity|]); eexists;
      (split; [reflexivity|exact Hne]).
Qed.

(** X9: a submission with text whose search returns documents adds to the
    conversation the one entry [[query, text]], where the text shows the
    content of every returned document; the text box is cleared and no error
    is logged. *)
Theorem search_results_are_shown
    (s : Session) (w : World) (d : Document) (ds : list Document) :
  blank (query_input s) = false ->
  search_reply vector_store (query_input s) (num_results s) w = Returns (d :: ds) ->
  submit vector_store s w
  = (Normal {| query_input := [];
               chatbot := chatbot s
                          ++ [[Some (query_input s);
                               Some (format_results (d :: ds))]];
               num_results := num_results s |},
     searched vector_store (query_input s) (num_results s) w)
  /\ (forall doc, In doc (d :: ds) ->
        contains (page_content doc) (format_results (d :: ds)) = true)
  /\ List.filter is_error_log
       (news w (searched vector_store (query_input s) (num_results s) w)) = [].
Proof.
  intros Hb Hr. split; [|split].
  - rewrite submit_text, search_documents_text by exact Hb. rewrite Hr.
    reflexivity.
  - intros doc Hin. apply (contains_in_format_results _ _ doc Hin).
    intros i. unfold document_block. cbn [fst snd].
    apply contains_app_r, contains_app_l, contains_app_r, contains_prefix.
  - erewrite news_app by (unfold searched; cbn [trace]; reflexivity).
    reflexivity.
Qed.

(** X10: the instruction "Please enter a valid search query" is never
    shown through the page: a submission either leaves the conversation as
    it is (blank query) or appends one entry whose text is another one.
    The blank branch of [search_documents] cannot be reached from
    [on_submit]. *)
Theorem instruction_is_never_shown (s s' : Session) (w w' : World) :
  submit vector_store s w = (Normal s', w') ->
  chatbot s' = chatbot s
  \/ exists response,
       chatbot s' = chatbot s ++ [[Some (query_input s); Some response]]
       /\ response <> please_enter.
Proof.
  intros Hrun.
  destruct (submit_conversation s w) as (w1 & [[_ E]|(_ & r & E & Hne)]);
    rewrite E in Hrun; injection Hrun as <- _.
  - left. reflexivity.
  - right. exists r. split; [reflexivity|exact Hne].
Qed.

Lemma dispatch_conversation ev s w s' w' :
  is_clear ev = false ->
  dispatch vector_store ev s w = (Normal s', w') ->
  exists extra,
    chatbot s' = chatbot s ++ extra
    /\ (length extra <= if is_submission ev then 1 else 0)%nat.
Proof.
  assert (Hsub : submit vector_store s w = (Normal s', w') ->
                  exists extra, chatbot s' = chatbot s ++ extra
                                /\ (length extra <= 1)%nat).
  { intros Hrun.
    destruct (submit_conversation s w) as (w1 & [[_ E]|(_ & r & E & _)]);
      rewrite E in Hrun; injection Hrun as <- _; cbn [chatbot].
    - exists []. rewrite app_nil_r. split; [reflexivity|simpl; lia].
    - eexists. split; [reflexivity|simpl; lia]. }
  intros Hc. destruct ev; simpl in *; try discriminate Hc; try exact Hsub;
    intros [= <- _]; exists []; rewrite app_nil_r;
    (split; [try reflexivity|simpl; lia]).
  destruct (slider_admits num_results_slider v); reflexivity.
Qed.

(** X11: as long as the clear button is not used, the conversation only
    grows at its end: what was shown stays shown, entry for entry, and at
    most one entry is added per submission. *)
Theorem conversation_only_grows (events : list UIEvent) :
  forall (s s' : Session) (w w' : World),
    List.filter is_clear events = [] ->
    launch vector_store events s w = (Normal s', w') ->
    exists extra,
      chatbot s' = chatbot s ++ extra
      /\ (length extra <= length (List.filter is_submission events))%nat.
Proof.
  induction events as [|ev events IH]; intros s s' w w' Hc; simpl.
  - intros [= <- _]. exists []. rewrite app_nil_r.
    split; [reflexivity|simpl; lia].
  - simpl in Hc. destruct (is_clear ev) eqn:Hev; [discriminate Hc|].
    rewrite bind_run. unfold try_except.
    destruct (dispatch_returns vector_store ev s w) as (s1 & w1 & Hd).
    rewrite Hd. intros Hrun.
    destruct (dispatch_conversation ev s w s1 w1 Hev Hd) as (x1 & E1 & L1).
    destruct (IH s1 s' w1 w' Hc Hrun) as (x2 & E2 & L2).
    exists (x1 ++ x2). rewrite E2, E1, <- app_assoc.
    split; [reflexivity|]. rewrite length_app.
    destruct (is_submission ev); simpl; lia.
Qed.

End ConversationFacts.

(** ** Further statements: the Index Provisioner *)

Section ProvisionerFacts.
Context `{External}.

Lemma api_key_is_another_key k :
  In k [AZURE_OPENAI_ENDPOINT; AZURE_OPENAI_DEPLOYMENT_NAME;
        AZURE_OPENAI_API_VERSION; MONGODB_ATLAS_CLUSTER_URI] ->
  AZURE_OPENAI_API_KEY <> k.
Proof.
  intros Hin E. subst k. simpl in Hin.
  destruct Hin as [E|[E|[E|[E|[]]]]];
    apply (f_equal (@length N)) in E; vm_compute in E; discriminate E.
Qed.

(** The prompt step returns or fails with the prompt's own exception; it
    touches the API key only and sends nothing over the network. *)
Lemma prompt_for_api_key_facts w :
  exists o w1 tp,
    prompt_for_api_key w = (o, w1)
    /\ trace w1 = trace w ++ tp
    /\ List.filter is_network tp = []
    /\ (forall k, AZURE_OPENAI_API_KEY <> k -> environ w1 !! k = environ w !! k)
    /\ (o = Normal tt
        /\ (unset (environ w) AZURE_OPENAI_API_KEY = false
            \/ exists typed, prompt_answer w = Returns typed)
        \/ exists e, o = Raised e
                     /\ unset (environ w) AZURE_OPENAI_API_KEY = true
                     /\ prompt_answer w = Raises e).
Proof.
  rewrite prompt_for_api_key_run.
  destruct (unset (environ w) AZURE_OPENAI_API_KEY);
    [destruct (prompt_answer w) as [typed|e]|].
  - eexists _, _, _. split; [reflexivity|]. split; [reflexivity|].
    split; [reflexivity|]. split; [|left; eauto].
    intros k Hk. cbn [environ]. apply lookup_insert_ne, Hk.
  - eexists _, _, _. split; [reflexivity|]. split; [reflexivity|].
    split; [reflexivity|]. split; [reflexivity|]. right. eauto.
  - exists (Normal tt), w, []. split; [reflexivity|].
    split; [symmetry; apply app_nil_r|].
    split; [reflexivity|]. split; [reflexivity|]. left. auto.
Qed.

Lemma make_embeddings_run w :
  make_embeddings w
  = match environ w !! AZURE_OPENAI_ENDPOINT with
    | None => (Raised (KeyError AZURE_OPENAI_ENDPOINT), w)
    | Some endpoint =>
        match environ w !! AZURE_OPENAI_DEPLOYMENT_NAME with
        | None => (Raised (KeyError AZURE_OPENAI_DEPLOYMENT_NAME), w)
        | Some deployment =>
            match environ w !! AZURE_OPENAI_API_VERSION with
            | None => (Raised (KeyError AZURE_OPENAI_API_VERSION), w)
            | Some version =>
                let e := {| azure_endpoint := endpoint;
                            azure_deployment := deployment;
                            openai_api_version := version |} in
                (call (new_AzureOpenAIEmbeddings e) ≫= fun _ => mret e) w
            end
        end
    end.
Proof.
  unfold make_embeddings. rewrite bind_run. unfold environ_getitem at 1.
  destruct (environ w !! AZURE_OPENAI_ENDPOINT); [|reflexivity].
  rewrite bind_run. unfold environ_getitem at 1.
  destruct (environ w !! AZURE_OPENAI_DEPLOYMENT_NAME); [|reflexivity].
  rewrite bind_run. unfold environ_getitem at 1.
  destruct (environ w !! AZURE_OPENAI_API_VERSION); reflexivity.
Qed.

Lemma make_embeddings_Normal w emb w' :
  make_embeddings w = (Normal emb, w') ->
  environ w !! AZURE_OPENAI_ENDPOINT = Some (azure_endpoint emb)
  /\ environ w !! AZURE_OPENAI_DEPLOYMENT_NAME = Some (azure_deployment emb)
  /\ environ w !! AZURE_OPENAI_API_VERSION = Some (openai_api_version emb).
Proof.
  rewrite make_embeddings_run.
  destruct (environ w !! AZURE_OPENAI_ENDPOINT); [|discriminate].
  destruct (environ w !! AZURE_OPENAI_DEPLOYMENT_NAME); [|discriminate].
  destruct (environ w !! AZURE_OPENAI_API_VERSION); [|discriminate].
  cbv zeta. intros Hrun. apply bind_Normal in Hrun as (? & w1 & _ & Hret).
  injection Hret as <- _. auto.
Qed.

Lemma call_run {A} (c : Call pyfloat A) w :
  exists o s,
    call c w = (o, {| environ := environ w; outside := s;
                      trace := trace w ++ [EvCall c] |})
    /\ forall code, o <> SysExit code.
Proof.
  unfold call. destruct (respond A c (environ w) (outside w)) as [[a|e] s];
    eexists _, _; (split; [reflexivity|discriminate]).
Qed.

End ProvisionerFacts.

Section ProvisionerClaims.
Context `{External}.


(** X13: in any run the Index Provisioner sends at most one request over
    the network, the index request: for 1536 dimensions, on the collection
    [styva-demo.docs] of the client built from the cluster URI as the
    environment has it ([None] when it is not set), under the fixed index
    name, with cosine relevance, and with the embeddings client built from
    the three Azure settings of the environment. *)
Theorem provisioner_sends_at_most_the_index_request (w : World) :
  let sent := List.filter is_network (news w (Provisioner.main w).2) in
  sent = []
  \/ exists emb,
       sent = [EvCall (create_vector_search_index
                         (from_collection
                            {| coll_client :=
                                 {| host := environ w !! MONGODB_ATLAS_CLUSTER_URI |};
                               coll_db := DB_NAME; coll_name := COLLECTION_NAME |}
                            emb ATLAS_VECTOR_SEARCH_INDEX_NAME (py "cosine"))
                         1536)]
       /\ environ w !! AZURE_OPENAI_ENDPOINT = Some (azure_endpoint emb)
       /\ environ w !! AZURE_OPENAI_DEPLOYMENT_NAME = Some (azure_deployment emb)
       /\ environ w !! AZURE_OPENAI_API_VERSION = Some (openai_api_version emb).
Proof.
  intros sent. subst sent. unfold Provisioner.main. rewrite bind_run.
  destruct (prompt_for_api_key_facts w)
    as (o & w1 & tp & -> & T1 & N1 & Hl & [[-> _]|(e0 & -> & _)]);
    [|left; cbn [snd]; rewrite (news_app _ _ _ T1); exact N1].
  set (quiet := fun ev : Event => negb (is_network ev)).
  rewrite bind_run.
  destruct (make_embeddings w1) as [[emb|e|c] w2] eqn:E2;
    (eapply (confined_run quiet) in E2 as Hc2;
     [|apply confined_make_embeddings; reflexivity]);
    destruct Hc2 as (V2 & t2 & T2 & N2); apply filter_none in N2;
    try (left; cbn [snd]; erewrite news_app by (rewrite T2, T1, <- ?app_assoc; reflexivity);
         rewrite !List.filter_app, N1, N2; reflexivity).
  apply make_embeddings_Normal in E2 as (L1 & L2 & L3).
  rewrite Hl in L1, L2, L3 by (apply api_key_is_another_key; simpl; auto 6).
  rewrite bind_run. unfold environ_get. cbn beta iota. rewrite V2.
  rewrite (Hl MONGODB_ATLAS_CLUSTER_URI)
    by (apply api_key_is_another_key; simpl; auto 6).
  rewrite bind_run.
  match goal with |- context [call ?c w2] =>
    destruct (call c w2) as [[[]|e|c'] w3] eqn:E3;
    (eapply (confined_run quiet) in E3 as Hc3;
     [|apply confined_call; reflexivity])
  end;
    destruct Hc3 as (_ & t3 & T3 & N3); apply filter_none in N3;
    try (left; cbn [snd];
         erewrite news_app by (rewrite T3, T2, T1, <- ?app_assoc; reflexivity);
         rewrite !List.filter_app, N1, N2, N3; reflexivity).
  rewrite bind_run.
  match goal with |- context [call ?c w3] =>
    destruct (call c w3) as [[[]|e|c'] w4] eqn:E4;
    (eapply (confined_run quiet) in E4 as Hc4;
     [|apply confined_call; reflexivity])
  end;
    destruct Hc4 as (_ & t4 & T4 & N4); apply filter_none in N4;
    try (left; cbn [snd];
         erewrite news_app by (rewrite T4, T3, T2, T1, <- ?app_assoc; reflexivity);
         rewrite !List.filter_app, N1, N2, N3, N4; reflexivity).
  right. exists emb. split; [|auto].
  match goal with |- context [call ?c w4] =>
    destruct (call_run c w4) as (o & s5 & -> & _)
  end.
  cbn [snd].
  erewrite news_app
    by (cbn [trace]; rewrite T4, T3, T2, T1, <- ?app_assoc; reflexivity).
  rewrite !List.filter_app, N1, N2, N3, N4. reflexivity.
Qed.

End ProvisionerClaims.

(** ** Further statements: the order of the Seeder's requests *)

Section SeederOrder.
Context `{External}.

Lemma upsert_then_search_prefix t1 t2 :
  forallb no_upsert_or_search t1 = true ->
  upsert_then_search t2 -> upsert_then_search (t1 ++ t2).
Proof.
  intros H1 [H2|(pre & vs & ids & post & -> & Hpre & Hlen & Hpost)].
  - left. rewrite forallb_app, H1, H2. reflexivity.
  - right. exists (t1 ++ pre), vs, ids, post.
    rewrite <- app_assoc, forallb_app, H1, Hpre. auto.
Qed.

Lemma shape_bind {A B} (m : Py A) (k : A -> Py B) w :
  (exists t1, trace (m w).2 = trace w ++ t1
              /\ forallb no_upsert_or_search t1 = true) ->
  (forall a w1, m w = (Normal a, w1) ->
     exists t2, trace (k a w1).2 = trace w1 ++ t2 /\ upsert_then_search t2) ->
  exists t, trace ((m ≫= k) w).2 = trace w ++ t /\ upsert_then_search t.
Proof.
  intros (t1 & T1 & N1) Hk. rewrite bind_run.
  destruct (m w) as [[a|e|c] w1]; cbn [snd] in *;
    try (exists t1; split; [exact T1|left; exact N1]).
  destruct (Hk a w1 eq_refl) as (t2 & T2 & S2). exists (t1 ++ t2).
  split; [rewrite T2, T1, app_assoc; reflexivity|].
  apply upsert_then_search_prefix; assumption.
Qed.

Lemma confined_trace {A} P (m : Py A) w :
  confined P m ->
  exists t, trace (m w).2 = trace w ++ t /\ forallb P t = true.
Proof. intros Hm. destruct (Hm w) as (_ & Ht). exact Ht. Qed.

(** The seeding step in every case: the upsert is attempted; the search
    only when the upsert returned. *)
Lemma seed_shape vector_store uuids w :
  exists l1 post,
    trace (Seeder.seed vector_store uuids w).2
    = trace w ++ EvLog INFO l1
              :: EvCall (add_documents vector_store Seeder.documents uuids)
              :: post
    /\ (forallb no_upsert_or_search post = true
        \/ exists mid post',
             post = mid ++ EvCall (similarity_search vector_store Seeder.query 2)
                        :: post'
             /\ forallb no_upsert_or_search (mid ++ post') = true).
Proof.
  unfold Seeder.seed, try_except.
  rewrite bind_run. unfold logging_info at 1. rewrite emit_run.
  rewrite bind_run. unfold call at 1. cbn [environ outside trace].
  destruct (respond _ (add_documents vector_store Seeder.documents uuids)
                    (environ w) (outside w)) as [[ids|e] s1].
  - rewrite bind_run. unfold logging_info at 1. rewrite emit_run.
    rewrite bind_run. unfold logging_info at 1. rewrite emit_run.
    rewrite bind_run. unfold call at 1. cbn [environ outside trace].
    destruct (respond _ (similarity_search vector_store Seeder.query 2)
                      (environ w) s1) as [[results|e] s2].
    + unfold logging_info. rewrite emit_run. cbn [snd trace].
      eexists _, _. split; [rewrite <- !app_assoc; reflexivity|].
      right. eexists [_; _], [_]. split; reflexivity.
    + rewrite bind_run. unfold logging_error. rewrite emit_run.
      cbn [snd trace sys_exit].
      eexists _, _. split; [rewrite <- !app_assoc; reflexivity|].
      right. eexists [_; _], [_]. split; reflexivity.
  - rewrite bind_run. unfold logging_error. rewrite emit_run.
    cbn [snd trace sys_exit].
    eexists _, _. split; [rewrite <- !app_assoc; reflexivity|].
    left. reflexivity.
Qed.

Lemma seed_and_report_shape vector_store uuids msg w :
  length uuids = length Seeder.documents ->
  exists t,
    trace ((Seeder.seed vector_store uuids ≫= fun _ => logging_info msg) w).2
    = trace w ++ t
    /\ upsert_then_search t.
Proof.
  intros Hlen.
  destruct (seed_shape vector_store uuids w) as (l1 & post & T & Hpost).
  rewrite bind_run.
  destruct (Seeder.seed vector_store uuids w) as [[[]|e|c] w1]; cbn [snd] in *.
  2,3: eexists; split; [exact T|]; right;
       exists [EvLog INFO l1], vector_store, uuids, post; auto.
  unfold logging_info. rewrite emit_run. cbn [snd trace].
  exists ([EvLog INFO l1]
          ++ EvCall (add_documents vector_store Seeder.documents uuids)
          :: post ++ [EvLog INFO msg]).
  split; [rewrite T, <- app_assoc; reflexivity|].
  right. exists [EvLog INFO l1], vector_store, uuids, (post ++ [EvLog INFO msg]).
  split; [reflexivity|]. split; [reflexivity|]. split; [exact Hlen|].
  destruct Hpost as [Hq|(mid & post' & -> & Hq)].
  - left. rewrite forallb_app, Hq. reflexivity.
  - right. exists mid, (post' ++ [EvLog INFO msg]).
    split; [rewrite <- app_assoc; reflexivity|].
    rewrite app_assoc, forallb_app, Hq. reflexivity.
Qed.

(** X14: in any run, however it ends, the Seeder sends to the collection
    nothing at all, or exactly one upsert, of the ten fixed documents with
    as many identifiers, followed by at most one search, the fixed query
    with k = 2 on the same vector store.  It never searches before or
    without the upsert and never upserts twice. *)
Theorem seeder_upserts_once_then_searches_once (w : World) :
  upsert_then_search (news w (Seeder.main w).2).
Proof.
  assert (Hshape : exists t, trace (Seeder.main w).2 = trace w ++ t
                             /\ upsert_then_search t).
  { unfold Seeder.main.
    apply shape_bind;
      [apply confined_trace, confined_check_required; reflexivity|].
    intros _ w1 _. apply shape_bind.
    { destruct (prompt_for_api_key w1) as [o w2] eqn:E.
      apply prompt_for_api_key_trace in E as (t & T & G).
      exists t. split; [exact T|apply groundwork_no_upsert_or_search, G]. }
    intros _ w2 _. apply shape_bind;
      [apply confined_trace; unfold Seeder.init_embeddings; confine|].
    intros embeddings w3 _. apply shape_bind;
      [apply confined_trace, confined_environ_get|].
    intros uri w4 _. apply shape_bind;
      [apply confined_trace; unfold Seeder.connect; confine|].
    intros client w5 _. cbv zeta. apply shape_bind;
      [apply confined_trace; unfold Seeder.init_vector_store; confine|].
    intros vector_store w6 _. apply shape_bind;
      [apply confined_trace, confined_repeat_py, confined_uuid4; reflexivity|].
    intros uuids w7 E7. apply seed_and_report_shape.
    destruct (repeat_uuid4_run (length Seeder.documents) w6)
      as (us & w7' & E7' & Hlen & _).
    rewrite E7' in E7. injection E7 as <- _. exact Hlen. }
  destruct Hshape as (t & T & S). rewrite (news_app _ _ _ T). exact S.
Qed.

End SeederOrder.

(** ** The further statements on explicit runs *)

Lemma seeder_stops_at_missing_keys_witness :
  let env := <[AZURE_OPENAI_ENDPOINT := []]>
               (delete MONGODB_ATLAS_CLUSTER_URI Lab.full_env) in
  let w := Lab.boot env (Returns []) in
  In AZURE_OPENAI_ENDPOINT Seeder.required_vars
  /\ env !! AZURE_OPENAI_ENDPOINT = Some []
  /\ (@Seeder.main Lab.world w).1 = SysExit 1
  /\ List.filter (unset env) Seeder.required_vars
     = [AZURE_OPENAI_ENDPOINT; MONGODB_ATLAS_CLUSTER_URI]
  /\ contains AZURE_OPENAI_ENDPOINT
       (py "Missing required environment variables: "
        ++ join (py ", ") (List.filter (unset env) Seeder.required_vars)) = true.
Proof.
  intros env w.
  assert (Hin : In AZURE_OPENAI_ENDPOINT Seeder.required_vars)
    by (left; reflexivity).
  assert (Hk : env !! AZURE_OPENAI_ENDPOINT = Some [])
    by (vm_compute; reflexivity).
  destruct (@seeder_stops_at_missing_keys Lab.world w AZURE_OPENAI_ENDPOINT
              Hin (or_intror Hk)) as (Hrun & _ & _ & Hc).
  split; [exact Hin|]. split; [exact Hk|].
  split; [rewrite Hrun; reflexivity|].
  split; [vm_compute; reflexivity|exact Hc].
Defined.

Lemma chatbot_stops_at_missing_keys_witness :
  let env := delete AZURE_OPENAI_API_KEY Lab.full_env in
  let w := Lab.boot env (Returns Seeder.documents) in
  let events := [Chatbot.type_query (py "Will it be hot tomorrow?");
                 Chatbot.submit_button_click] in
  In AZURE_OPENAI_API_KEY Chatbot.required_vars
  /\ env !! AZURE_OPENAI_API_KEY = None
  /\ (@Chatbot.main Lab.world events w).1 = SysExit 1
  /\ List.filter (unset env) Chatbot.required_vars = [AZURE_OPENAI_API_KEY]
  /\ trace (@Chatbot.main Lab.world events w).2
     = [EvLog ERROR (py "Missing required environment variables: "
                     ++ join (py ", ")
                          (List.filter (unset env) Chatbot.required_vars))].
Proof.
  intros env w events.
  assert (Hin : In AZURE_OPENAI_API_KEY Chatbot.required_vars)
    by (simpl; auto 6).
  assert (Hk : env !! AZURE_OPENAI_API_KEY = None) by (vm_compute; reflexivity).
  destruct (@chatbot_stops_at_missing_keys Lab.world w AZURE_OPENAI_API_KEY
              events Hin (or_introl Hk)) as (Hrun & _ & _ & _).
  split; [exact Hin|]. split; [exact Hk|].
  split; [rewrite Hrun; reflexivity|].
  split; [vm_compute; reflexivity|]. rewrite Hrun. reflexivity.
Defined.

Lemma source_defaults_to_unknown_witness :
  let plain := {| page_content := py "A note without metadata";
                  metadata := ∅ |} in
  let results := [Seeder.doc "The top 10 soccer players in the world right now."
                             "website"; plain] in
  In plain results
  /\ metadata plain !! py "source" = None
  /\ contains (py "**Content:** " ++ page_content plain ++ nl
               ++ py "**Source:** " ++ py "Unknown" ++ nl ++ nl)
              (Chatbot.format_results results) = true.
Proof.
  intros plain results.
  assert (Hin : In plain results) by (right; left; reflexivity).
  assert (Hnone : metadata plain !! py "source" = None) by reflexivity.
  split; [exact Hin|]. split; [exact Hnone|].
  exact (proj1 (source_defaults_to_unknown results plain Hin) Hnone).
Defined.

Lemma search_results_are_shown_witness :
  let d := Seeder.doc
             "The weather forecast for tomorrow is cloudy and overcast, with a high of 62 degrees."
             "news" in
  let s := {| Chatbot.query_input := py "Will it be hot tomorrow?";
              Chatbot.chatbot := Chatbot.get_welcome_message;
              Chatbot.num_results := 3 |} in
  let w := Lab.boot Lab.full_env (Returns [d]) in
  blank (Chatbot.query_input s) = false
  /\ @search_reply Lab.world Lab.a_store (Chatbot.query_input s) 3 w = Returns [d]
  /\ @Chatbot.submit Lab.world Lab.a_store s w
     = (Normal {| Chatbot.query_input := [];
                  Chatbot.chatbot :=
                    Chatbot.get_welcome_message
                    ++ [[Some (Chatbot.query_input s);
                         Some (Chatbot.format_results [d])]];
                  Chatbot.num_results := 3 |},
        @searched Lab.world Lab.a_store (Chatbot.query_input s) 3 w)
  /\ contains (page_content d) (Chatbot.format_results [d]) = true.
Proof.
  intros d s w.
  assert (Hb : blank (Chatbot.query_input s) = false) by (vm_compute; reflexivity).
  assert (Hr : @search_reply Lab.world Lab.a_store (Chatbot.query_input s) 3 w
               = Returns [d]) by (vm_compute; reflexivity).
  destruct (@search_results_are_shown Lab.world Lab.a_store s w d [] Hb Hr)
    as (Hrun & Hc & _).
  split; [exact Hb|]. split; [exact Hr|]. split; [exact Hrun|].
  apply Hc. left. reflexivity.
Defined.

Lemma instruction_is_never_shown_witness :
  let s := {| Chatbot.query_input := py "Will it be hot tomorrow?";
              Chatbot.chatbot := Chatbot.get_welcome_message;
              Chatbot.num_results := 3 |} in
  let w := Lab.boot Lab.full_env (Raises Lab.timeout) in
  let s' := {| Chatbot.query_input := [];
               Chatbot.chatbot :=
                 Chatbot.get_welcome_message
                 ++ [[Some (Chatbot.query_input s);
                      Some (Chatbot.error_prefix ++ @str_exc Lab.world Lab.timeout)]];
               Chatbot.num_results := 3 |} in
  let w' := (@Chatbot.submit Lab.world Lab.a_store s w).2 in
  @Chatbot.submit Lab.world Lab.a_store s w = (Normal s', w')
  /\ (Chatbot.chatbot s' = Chatbot.chatbot s
      \/ exists response,
           Chatbot.chatbot s'
           = Chatbot.chatbot s ++ [[Some (Chatbot.query_input s); Some response]]
           /\ response <> Chatbot.please_enter).
Proof.
  intros s w s' w'.
  assert (Hrun : @Chatbot.submit Lab.world Lab.a_store s w = (Normal s', w'))
    by (vm_compute; reflexivity).
  split; [exact Hrun|].
  exact (@instruction_is_never_shown Lab.world Lab.a_store s s' w w' Hrun).
Defined.

Lemma conversation_only_grows_witness :
  let q := py "Stealing from the bank is a crime" in
  let events := [Chatbot.type_query q; Chatbot.submit_button_click;
                 Chatbot.move_slider 5; Chatbot.type_query (py " ");
                 Chatbot.query_input_submit] in
  let w := Lab.boot Lab.full_env (Returns []) in
  let s' := {| Chatbot.query_input := [];
               Chatbot.chatbot :=
                 Chatbot.get_welcome_message
                 ++ [[Some q; Some Chatbot.nothing_found]];
               Chatbot.num_results := 5 |} in
  let w' := (@Chatbot.launch Lab.world Lab.a_store events
               Chatbot.initial_session w).2 in
  List.filter is_clear events = []
  /\ @Chatbot.launch Lab.world Lab.a_store events Chatbot.initial_session w
     = (Normal s', w')
  /\ exists extra,
       Chatbot.chatbot s' = Chatbot.chatbot Chatbot.initial_session ++ extra
       /\ (length extra <= length (List.filter is_submission events))%nat.
Proof.
  intros q events w s' w'.
  assert (Hc : List.filter is_clear events = []) by reflexivity.
  assert (Hrun : @Chatbot.launch Lab.world Lab.a_store events
                   Chatbot.initial_session w = (Normal s', w'))
    by (vm_compute; reflexivity).
  split; [exact Hc|]. split; [exact Hrun|].
  exact (@conversation_only_grows Lab.world Lab.a_store events
           Chatbot.initial_session s' w w' Hc Hrun).
Defined.


(** ** Further statements: what a successful start sends *)

Section SuccessfulStart.
Context `{External}.

Lemma local_run {A} (m : Py A) w o w' :
  confined no_network m -> m w = (o, w') ->
  environ w' = environ w
  /\ exists t, trace w' = trace w ++ t /\ List.filter is_network t = [].
Proof.
  intros Hm E. destruct (confined_run no_network m w o w' Hm E) as (He & t & T & N).
  split; [exact He|]. exists t. split; [exact T|apply filter_none, N].
Qed.

Lemma environ_getitem_Normal k w v w' :
  environ_getitem k w = (Normal v, w') -> w' = w /\ environ w !! k = Some v.
Proof.
  unfold environ_getitem. destruct (environ w !! k); [|discriminate].
  intros [= <- <-]. auto.
Qed.

Lemma check_required_Normal rv w a w' :
  check_required rv w = (Normal a, w') ->
  w' = w /\ forall k, In k rv -> exists v, environ w !! k = Some v /\ v <> [].
Proof.
  rewrite check_required_run.
  destruct (List.filter (unset (environ w)) rv) eqn:Hf; [|discriminate].
  intros [= _ <-]. split; [reflexivity|]. intros k Hin.
  assert (Hu : unset (environ w) k = false).
  { destruct (unset (environ w) k) eqn:Hu; [|reflexivity].
    assert (Hk : In k (List.filter (unset (environ w)) rv))
      by (apply filter_In; auto).
    rewrite Hf in Hk. destruct Hk. }
  unfold unset in Hu. destruct (environ w !! k) as [v|]; [|discriminate].
  exists v. split; [reflexivity|]. intros ->. discriminate.
Qed.

Lemma make_embeddings_local : confined no_network make_embeddings.
Proof. apply confined_make_embeddings. reflexivity. Qed.

(** The connection step of a script that went on: client built, then one
    ping. *)
Lemma connect_steps (uri : option pystr) w1 w2 w3 w4 :
  logging_info (py "Connecting to MongoDB Atlas...") w1 = (Normal tt, w2) ->
  call (new_MongoClient {| host := uri |}) w2 = (Normal tt, w3) ->
  call (admin_command {| host := uri |} (py "ping")) w3 = (Normal tt, w4) ->
  environ w4 = environ w1
  /\ exists t, trace w4 = trace w1 ++ t
               /\ List.filter is_network t
                  = [EvCall (admin_command {| host := uri |} (py "ping"))].
Proof.
  intros E1 E2 E3. apply logging_info_Normal in E1 as T1.
  unfold logging_info in E1. rewrite emit_run in E1. injection E1 as <-.
  apply call_Normal in E2 as (T2 & V2 & _).
  apply call_Normal in E3 as (T3 & V3 & _).
  split; [rewrite V3, V2; reflexivity|].
  eexists. split; [rewrite T3, T2; cbn [trace]; rewrite <- !app_assoc; reflexivity|].
  reflexivity.
Qed.

Lemma chatbot_init_embeddings_Normal w emb w' :
  Chatbot.init_embeddings w = (Normal emb, w') ->
  environ w' = environ w
  /\ (exists t, trace w' = trace w ++ t /\ List.filter is_network t = [])
  /\ environ w !! AZURE_OPENAI_ENDPOINT = Some (azure_endpoint emb)
  /\ environ w !! AZURE_OPENAI_DEPLOYMENT_NAME = Some (azure_deployment emb)
  /\ environ w !! AZURE_OPENAI_API_VERSION = Some (openai_api_version emb).
Proof.
  intros Hrun.
  assert (Hc : confined no_network Chatbot.init_embeddings).
  { unfold Chatbot.init_embeddings.
    apply confined_try; [|intros e; confine].
    apply confined_bind; [apply confined_logging_info; reflexivity|]. intros _.
    apply confined_bind; [apply make_embeddings_local|]. intros e. confine. }
  destruct (local_run _ _ _ _ Hc Hrun) as (He & Ht).
  split; [exact He|]. split; [exact Ht|].
  unfold Chatbot.init_embeddings in Hrun. apply try_exit_Normal in Hrun.
  apply bind_Normal in Hrun as ([] & w1 & E1 & Hrun).
  apply bind_Normal in Hrun as (emb' & w2 & E2 & Hrun).
  apply bind_Normal in Hrun as ([] & w3 & _ & Hret). injection Hret as <- _.
  unfold logging_info in E1. rewrite emit_run in E1. injection E1 as <-.
  apply make_embeddings_Normal in E2. exact E2.
Qed.

Lemma chatbot_connect_Normal w client w' :
  Chatbot.connect w = (Normal client, w') ->
  exists uri,
    environ w !! MONGODB_ATLAS_CLUSTER_URI = Some uri
    /\ environ w' = environ w
    /\ exists t, trace w' = trace w ++ t
                 /\ List.filter is_network t
                    = [EvCall (admin_command {| host := Some uri |} (py "ping"))].
Proof.
  intros Hrun. unfold Chatbot.connect in Hrun. apply try_exit_Normal in Hrun.
  apply bind_Normal in Hrun as ([] & w1 & E1 & Hrun).
  apply bind_Normal in Hrun as (uri & w2 & E2 & Hrun).
  apply environ_getitem_Normal in E2 as (-> & L).
  cbv zeta in Hrun.
  apply bind_Normal in Hrun as ([] & w3 & E3 & Hrun).
  apply bind_Normal in Hrun as ([] & w4 & E4 & Hrun).
  apply bind_Normal in Hrun as ([] & w5 & E5 & Hret). injection Hret as _ <-.
  destruct (connect_steps (Some uri) w w1 w3 w4 E1 E3 E4) as (V & t & T & N).
  assert (L' : environ w !! MONGODB_ATLAS_CLUSTER_URI = Some uri).
  { unfold logging_info in E1. rewrite emit_run in E1. injection E1 as <-.
    exact L. }
  exists uri. split; [exact L'|].
  apply logging_info_Normal in E5 as T5.
  unfold logging_info in E5. rewrite emit_run in E5. injection E5 as <-.
  split; [exact V|]. exists (t ++ [EvLog INFO (py "Successfully connected to MongoDB Atlas")]).
  split; [cbn [trace]; rewrite T, <- app_assoc; reflexivity|].
  rewrite List.filter_app, N. reflexivity.
Qed.

Lemma chatbot_init_vector_store_Normal emb w vs w' :
  Chatbot.init_vector_store emb w = (Normal vs, w') ->
  exists uri,
    environ w !! MONGODB_ATLAS_CLUSTER_URI = Some uri
    /\ vs = from_connection_string (Some uri) (DB_NAME ++ py "." ++ COLLECTION_NAME)
                                   emb ATLAS_VECTOR_SEARCH_INDEX_NAME
    /\ environ w' = environ w
    /\ exists t, trace w' = trace w ++ t /\ List.filter is_network t = [].
Proof.
  intros Hrun.
  assert (Hc : confined no_network (Chatbot.init_vector_store emb))
    by (unfold Chatbot.init_vector_store; confine).
  destruct (local_run _ _ _ _ Hc Hrun) as (He & Ht).
  unfold Chatbot.init_vector_store in Hrun. apply try_exit_Normal in Hrun.
  apply bind_Normal in Hrun as ([] & w1 & E1 & Hrun).
  apply bind_Normal in Hrun as (uri & w2 & E2 & Hrun).
  apply environ_getitem_Normal in E2 as (-> & L).
  cbv zeta in Hrun.
  apply bind_Normal in Hrun as ([] & w3 & _ & Hrun).
  apply bind_Normal in Hrun as ([] & w4 & _ & Hret). injection Hret as <- _.
  unfold logging_info in E1. rewrite emit_run in E1. injection E1 as <-.
  exists uri. auto.
Qed.

(** X15: when the start-up of the UI succeeds, the vector store the page
    will search is the one built from the cluster URI of the environment
    (set and not empty), the namespace [styva-demo.docs], the fixed index
    name and an embeddings client made of the three Azure settings of the
    environment; start-up has sent exactly one request over the network,
    the ping, and has left the environment as it was. *)
Theorem chatbot_startup_builds_store_from_environment
    (w w' : World) (vector_store : MongoDBAtlasVectorSearch) :
  Chatbot.startup w = (Normal vector_store, w') ->
  exists emb uri,
    vector_store
    = from_connection_string (Some uri) (DB_NAME ++ py "." ++ COLLECTION_NAME)
                             emb ATLAS_VECTOR_SEARCH_INDEX_NAME
    /\ environ w !! MONGODB_ATLAS_CLUSTER_URI = Some uri /\ uri <> []
    /\ environ w !! AZURE_OPENAI_ENDPOINT = Some (azure_endpoint emb)
    /\ environ w !! AZURE_OPENAI_DEPLOYMENT_NAME = Some (azure_deployment emb)
    /\ environ w !! AZURE_OPENAI_API_VERSION = Some (openai_api_version emb)
    /\ List.filter is_network (news w w')
       = [EvCall (admin_command {| host := Some uri |} (py "ping"))]
    /\ environ w' = environ w.
Proof.
  intros Hrun. unfold Chatbot.startup in Hrun.
  apply bind_Normal in Hrun as ([] & w1 & E1 & Hrun).
  apply bind_Normal in Hrun as (emb & w2 & E2 & Hrun).
  apply bind_Normal in Hrun as (client & w3 & E3 & E4).
  apply check_required_Normal in E1 as (-> & Hset).
  apply chatbot_init_embeddings_Normal in E2
    as (V2 & (t2 & T2 & N2) & L1 & L2 & L3).
  apply chatbot_connect_Normal in E3 as (uri & Lu & V3 & t3 & T3 & N3).
  apply chatbot_init_vector_store_Normal in E4
    as (uri' & Lu' & -> & V4 & t4 & T4 & N4).
  rewrite V2 in Lu. rewrite V3, V2 in Lu'.
  assert (uri' = uri) by congruence. subst uri'.
  destruct (Hset MONGODB_ATLAS_CLUSTER_URI) as (v & Lv & Hv);
    [unfold Chatbot.required_vars; simpl; auto 6|].
  assert (v = uri) by congruence. subst v.
  exists emb, uri. repeat (split; [assumption || reflexivity|]).
  split; [|rewrite V4, V3, V2; reflexivity].
  erewrite news_app by (rewrite T4, T3, T2, <- !app_assoc; reflexivity).
  rewrite !List.filter_app, N2, N3, N4. reflexivity.
Qed.

End SuccessfulStart.

Section SeederSuccess.
Context `{External}.

Lemma seeder_init_embeddings_Normal w emb w' :
  Seeder.init_embeddings w = (Normal emb, w') ->
  environ w' = environ w
  /\ (exists t, trace w' = trace w ++ t
                /\ List.filter is_network t
                   = [EvCall (embed_query emb (py "Test embedding"))])
  /\ environ w !! AZURE_OPENAI_ENDPOINT = Some (azure_endpoint emb)
  /\ environ w !! AZURE_OPENAI_DEPLOYMENT_NAME = Some (azure_deployment emb)
  /\ environ w !! AZURE_OPENAI_API_VERSION = Some (openai_api_version emb).
Proof.
  intros Hrun. unfold Seeder.init_embeddings in Hrun.
  apply try_exit_Normal in Hrun.
  apply bind_Normal in Hrun as ([] & w1 & E1 & Hrun).
  apply bind_Normal in Hrun as (emb' & w2 & E2 & Hrun).
  apply bind_Normal in Hrun as ([] & w3 & E3 & Hret). injection Hret as <- <-.
  apply try_exit_Normal in E3.
  apply bind_Normal in E3 as (vec & w4 & E4 & E5).
  apply logging_info_Normal in E1 as T1.
  unfold logging_info in E1. rewrite emit_run in E1. injection E1 as <-.
  destruct (local_run _ _ _ _ make_embeddings_local E2) as (V2 & t2 & T2 & N2).
  apply make_embeddings_Normal in E2.
  apply call_Normal in E4 as (T4 & V4 & _).
  apply logging_info_Normal in E5 as T5.
  unfold logging_info in E5. rewrite emit_run in E5. injection E5 as <-.
  cbn [environ] in *. split; [rewrite V4, V2; reflexivity|].
  split; [|exact E2].
  eexists. split.
  - cbn [trace]. rewrite T4, T2. cbn [trace]. rewrite <- !app_assoc. reflexivity.
  - rewrite !List.filter_app, N2. reflexivity.
Qed.

Lemma seeder_connect_Normal uri w client w' :
  Seeder.connect uri w = (Normal client, w') ->
  environ w' = environ w
  /\ exists t, trace w' = trace w ++ t
               /\ List.filter is_network t
                  = [EvCall (admin_command {| host := uri |} (py "ping"))].
Proof.
  intros Hrun. unfold Seeder.connect in Hrun. apply try_exit_Normal in Hrun.
  apply bind_Normal in Hrun as ([] & w1 & E1 & Hrun). cbv zeta in Hrun.
  apply bind_Normal in Hrun as ([] & w2 & E2 & Hrun).
  apply bind_Normal in Hrun as ([] & w3 & E3 & Hrun).
  apply bind_Normal in Hrun as ([] & w4 & E4 & Hret). injection Hret as _ <-.
  destruct (connect_steps uri w w1 w2 w3 E1 E2 E3) as (V & t & T & N).
  apply logging_info_Normal in E4 as T4.
  unfold logging_info in E4. rewrite emit_run in E4. injection E4 as <-.
  split; [exact V|].
  exists (t ++ [EvLog INFO (py "Successfully connected to MongoDB Atlas")]).
  split; [cbn [trace]; rewrite T, <- app_assoc; reflexivity|].
  rewrite List.filter_app, N. reflexivity.
Qed.

Lemma seeder_init_vector_store_Normal uri emb w vs w' :
  Seeder.init_vector_store uri emb w = (Normal vs, w') ->
  vs = from_connection_string uri (DB_NAME ++ py "." ++ COLLECTION_NAME)
                              emb ATLAS_VECTOR_SEARCH_INDEX_NAME
  /\ exists t, trace w' = trace w ++ t /\ List.filter is_network t = [].
Proof.
  intros Hrun.
  assert (Hc : confined no_network (Seeder.init_vector_store uri emb))
    by (unfold Seeder.init_vector_store; confine).
  destruct (local_run _ _ _ _ Hc Hrun) as (_ & Ht). split; [|exact Ht].
  unfold Seeder.init_vector_store in Hrun. apply try_exit_Normal in Hrun.
  apply bind_Normal in Hrun as ([] & w1 & _ & Hrun). cbv zeta in Hrun.
  apply bind_Normal in Hrun as ([] & w2 & _ & Hrun).
  apply bind_Normal in Hrun as ([] & w3 & _ & Hret). injection Hret as <- _.
  reflexivity.
Qed.

(** X16: a run of the Seeder that ends normally has sent exactly four
    requests over the network, in this order: the test embedding, the
    ping, the upsert of the fixed documents and the search of the fixed
    query with k = 2; the clients are built from the environment: the
    cluster URI (set and not empty) and the three Azure settings. *)
Theorem seeder_success_sends_four_requests (w w' : World) :
  Seeder.main w = (Normal tt, w') ->
  exists emb uri uuids,
    let vector_store :=
      from_connection_string (Some uri) (DB_NAME ++ py "." ++ COLLECTION_NAME)
                             emb ATLAS_VECTOR_SEARCH_INDEX_NAME in
    List.filter is_network (news w w')
    = [EvCall (embed_query emb (py "Test embedding"));
       EvCall (admin_command {| host := Some uri |} (py "ping"));
       EvCall (add_documents vector_store Seeder.documents uuids);
       EvCall (similarity_search vector_store Seeder.query 2)]
    /\ environ w !! MONGODB_ATLAS_CLUSTER_URI = Some uri /\ uri <> []
    /\ environ w !! AZURE_OPENAI_ENDPOINT = Some (azure_endpoint emb)
    /\ environ w !! AZURE_OPENAI_DEPLOYMENT_NAME = Some (azure_deployment emb)
    /\ environ w !! AZURE_OPENAI_API_VERSION = Some (openai_api_version emb).
Proof.
  intros Hrun. unfold Seeder.main in Hrun.
  apply bind_Normal in Hrun as ([] & w1 & E1 & Hrun).
  apply bind_Normal in Hrun as ([] & w2 & E2 & Hrun).
  apply bind_Normal in Hrun as (emb & w3 & E3 & Hrun).
  apply bind_Normal in Hrun as (uri & w4 & E4 & Hrun).
  apply bind_Normal in Hrun as (client & w5 & E5 & Hrun). cbv zeta in Hrun.
  apply bind_Normal in Hrun as (vs & w6 & E6 & Hrun).
  apply bind_Normal in Hrun as (uuids & w7 & E7 & Hrun).
  apply bind_Normal in Hrun as ([] & w8 & E8 & E9).
  apply check_required_Normal in E1 as (-> & Hset).
  destruct (prompt_for_api_key_facts w)
    as (o & w2' & tp & E2' & T2 & N2 & Hl & _).
  rewrite E2' in E2. injection E2 as -> <-.
  apply seeder_init_embeddings_Normal in E3
    as (V3 & (t3 & T3 & N3) & L1 & L2 & L3).
  rewrite Hl in L1, L2, L3 by (apply api_key_is_another_key; simpl; auto 6).
  unfold environ_get in E4. injection E4 as <- <-.
  rewrite V3, (Hl MONGODB_ATLAS_CLUSTER_URI)
    in E5, E6 by (apply api_key_is_another_key; simpl; auto 6).
  destruct (Hset MONGODB_ATLAS_CLUSTER_URI) as (u & Lu & Hu);
    [unfold Seeder.required_vars; simpl; auto 6|].
  rewrite Lu in E5, E6.
  apply seeder_connect_Normal in E5 as (_ & t5 & T5 & N5).
  apply seeder_init_vector_store_Normal in E6 as (-> & t6 & T6 & N6).
  destruct (local_run (repeat_py (length Seeder.documents) uuid4) w6
                      (Normal uuids) w7)
    as (_ & t7 & T7 & N7);
    [apply confined_repeat_py, confined_uuid4; reflexivity|exact E7|].
  apply seed_Normal in E8 as (l1 & l2 & l3 & l4 & T8).
  apply logging_info_Normal in E9.
  exists emb, u, uuids. cbv zeta.
  split; [|repeat split; assumption].
  erewrite news_app
    by (rewrite E9, T8, T7, T6, T5, T3, T2, <- !app_assoc; reflexivity).
  rewrite !List.filter_app, N2, N3, N5, N6, N7. reflexivity.
Qed.

End SeederSuccess.

Lemma chatbot_startup_builds_store_from_environment_witness :
  let w := Lab.boot Lab.full_env (Returns Seeder.documents) in
  let w' := (@Chatbot.startup Lab.world w).2 in
  @Chatbot.startup Lab.world w = (Normal Lab.a_store, w')
  /\ exists emb uri,
       Lab.a_store
       = from_connection_string (Some uri) (DB_NAME ++ py "." ++ COLLECTION_NAME)
                                emb ATLAS_VECTOR_SEARCH_INDEX_NAME
       /\ Lab.full_env !! MONGODB_ATLAS_CLUSTER_URI = Some uri /\ uri <> []
       /\ Lab.full_env !! AZURE_OPENAI_ENDPOINT = Some (azure_endpoint emb)
       /\ Lab.full_env !! AZURE_OPENAI_DEPLOYMENT_NAME = Some (azure_deployment emb)
       /\ Lab.full_env !! AZURE_OPENAI_API_VERSION = Some (openai_api_version emb)
       /\ List.filter is_network (news w w')
          = [EvCall (admin_command {| host := Some uri |} (py "ping"))]
       /\ @environ Lab.world w' = Lab.full_env.
Proof.
  intros w w'.
  assert (Hrun : @Chatbot.startup Lab.world w = (Normal Lab.a_store, w'))
    by (vm_compute; reflexivity).
  split; [exact Hrun|].
  exact (@chatbot_startup_builds_store_from_environment Lab.world w w'
           Lab.a_store Hrun).
Defined.

Lemma seeder_success_sends_four_requests_witness :
  let w := Lab.boot Lab.full_env (Returns Seeder.documents) in
  let w' := (@Seeder.main Lab.world w).2 in
  @Seeder.main Lab.world w = (Normal tt, w')
  /\ exists emb uri uuids,
       let vector_store :=
         from_connection_string (Some uri) (DB_NAME ++ py "." ++ COLLECTION_NAME)
                                emb ATLAS_VECTOR_SEARCH_INDEX_NAME in
       List.filter is_network (news w w')
       = [EvCall (embed_query emb (py "Test embedding"));
          EvCall (admin_command {| host := Some uri |} (py "ping"));
          EvCall (add_documents vector_store Seeder.documents uuids);
          EvCall (similarity_search vector_store Seeder.query 2)]
       /\ @environ Lab.world w !! MONGODB_ATLAS_CLUSTER_URI = Some uri
       /\ uri <> []
       /\ @environ Lab.world w !! AZURE_OPENAI_ENDPOINT = Some (azure_endpoint emb)
       /\ @environ Lab.world w !! AZURE_OPENAI_DEPLOYMENT_NAME
          = Some (azure_deployment emb)
       /\ @environ Lab.world w !! AZURE_OPENAI_API_VERSION
          = Some (openai_api_version emb).
Proof.
  intros w w'.
  assert (Hrun : @Seeder.main Lab.world w = (Normal tt, w'))
    by (vm_compute; reflexivity).
  split; [exact Hrun|].
  exact (@seeder_success_sends_four_requests Lab.world w w' Hrun).
Defined.
